(** * Weather OPS: flight-category classification and METAR analysis

    A shallow embedding of [app.py]: the Python values the script handles
    (decoded JSON, [None], numbers), the exceptions its expressions can
    raise, the three fetchers, the flight-rules classifier, the METAR
    analysis block and the page the script renders. *)

From Stdlib Require Import ZArith QArith String Ascii List Bool Sorted Lia.
Import ListNotations.
Set Warnings "-register-all".
Open Scope string_scope.
Open Scope Z_scope.

(** ** Python values and exceptions *)

(** The exceptions the modelled expressions can raise. *)
Inductive exn :=
| AttributeError   (* [x.get], [x.upper] on a value without that method *)
| TypeError        (* comparison, iteration or conversion of a wrong type *)
| ValueError       (* [int(nan)], unparsable numeric string *)
| OverflowError    (* [int(inf)], [float] of an int beyond the float range *)
| KeyError         (* [d[k]] with [k] missing *)
| RequestException (* [requests.get] could not complete *)
| JSONDecodeError. (* [r.json()] on a body that is not JSON *)

(** The outcome of evaluating an expression: a value or a raised exception. *)
Inductive res (A : Type) :=
| Ok (a : A)
| Raise (e : exn).
Arguments Ok {A} a.
Arguments Raise {A} e.

Definition bind_res {A B} (m : res A) (k : A -> res B) : res B :=
  match m with
  | Ok a => k a
  | Raise e => Raise e
  end.

Declare Scope res_scope.
Delimit Scope res_scope with res.
Notation "x <- m ;; k" := (bind_res m (fun x => k))
  (at level 61, m at next level, right associativity) : res_scope.
Notation "' pat <- m ;; k" := (bind_res m (fun x => match x with pat => k end))
  (at level 61, pat pattern, m at next level, right associativity) : res_scope.
Open Scope res_scope.

(** A Python float: not-a-number, an infinity, or a finite value.  Every
    finite binary64 is a rational, so finite floats are carried as [Q]; the
    statements below quantify over all rationals and hence cover them. *)
Inductive pyfloat :=
| FFin (q : Q)
| FInf (negative : bool)
| FNaN.

(** Values produced by [r.json()] and handled by the script.  A dict is kept
    as the list of its items; [lookup] returns the first item of a key. *)
Inductive pyval :=
| PNone
| PBool (b : bool)
| PInt (z : Z)
| PFloat (f : pyfloat)
| PStr (s : string)
| PList (l : list pyval)
| PDict (kvs : list (string * pyval)).

Fixpoint lookup (k : string) (kvs : list (string * pyval)) : option pyval :=
  match kvs with
  | [] => None
  | (k', v) :: rest => if String.eqb k k' then Some v else lookup k rest
  end.

(** [x is None] *)
Definition is_None (v : pyval) : bool :=
  match v with PNone => true | _ => false end.

(** [bool(x)]: the truth value Python's [if x] tests. *)
Definition truthy (v : pyval) : bool :=
  match v with
  | PNone => false
  | PBool b => b
  | PInt z => negb (z =? 0)
  | PFloat (FFin q) => negb (Qnum q =? 0)
  | PFloat _ => true
  | PStr s => negb (String.eqb s "")
  | PList l => match l with [] => false | _ => true end
  | PDict kvs => match kvs with [] => false | _ => true end
  end.

(** [x >= k] for an int literal [k].  Python compares an int or a float with
    an int exactly; every comparison with nan is false; any other operand
    type raises TypeError. *)
Definition py_ge (x : pyval) (k : Z) : res bool :=
  match x with
  | PInt z => Ok (k <=? z)
  | PBool b => Ok (k <=? Z.b2z b)
  | PFloat (FFin q) => Ok (Qle_bool (inject_Z k) q)
  | PFloat (FInf negative) => Ok (negb negative)
  | PFloat FNaN => Ok false
  | _ => Raise TypeError
  end.

(** [a and b] on comparison results: [b] is not evaluated when [a] is false,
    so an exception of [b] is not raised then. *)
Definition py_and (a b : res bool) : res bool :=
  c <- a ;; if c then b else Ok false.

(** ** The classifier (app.py, lines 57-68) *)

Definition get_flight_rules (visibility_m ceiling_ft : pyval) : res string :=
  if is_None visibility_m || is_None ceiling_ft then
    Ok "Insufficient data"
  else
    vfr <- py_and (py_ge visibility_m 5000) (py_ge ceiling_ft 1500) ;;
    if vfr then Ok "VFR (Visual Flight Rules)"
    else
      mvfr <- py_and (py_ge visibility_m 3000) (py_ge ceiling_ft 1000) ;;
      if mvfr then Ok "MVFR (Marginal VFR)"
      else
        ifr <- py_and (py_ge visibility_m 1600) (py_ge ceiling_ft 500) ;;
        if ifr then Ok "IFR (Instrument Flight Rules)"
        else Ok "LIFR (Low IFR)".

(** The categories of the specification and the strings the classifier
    returns for them. *)
Inductive FlightCategory := VFR | MVFR | IFR | LIFR | INSUFFICIENT_DATA.

Definition label (cat : FlightCategory) : string :=
  match cat with
  | VFR => "VFR (Visual Flight Rules)"
  | MVFR => "MVFR (Marginal VFR)"
  | IFR => "IFR (Instrument Flight Rules)"
  | LIFR => "LIFR (Low IFR)"
  | INSUFFICIENT_DATA => "Insufficient data"
  end.

(** Python's numbers: the operands on which [>=] with an int is defined. *)
Definition is_number (v : pyval) : bool :=
  match v with
  | PBool _ | PInt _ | PFloat _ => true
  | _ => false
  end.

(** [reaches v k]: the number [v] is at least [k], in the order of the
    integers and rationals (nan is at least nothing). *)
Definition reaches (v : pyval) (k : Z) : Prop :=
  match v with
  | PInt z => k <= z
  | PBool b => k <= Z.b2z b
  | PFloat (FFin q) => (inject_Z k <= q)%Q
  | PFloat (FInf negative) => negative = false
  | _ => False
  end.

(** ** Strings *)

(** [s.upper()] on the ASCII letters.  Bytes outside a-z are left alone; no
    character outside ASCII upper-cases to a run containing "CAVOK", so the
    search below is not affected. *)
Definition upper_ascii (c : ascii) : ascii :=
  let n := nat_of_ascii c in
  if ((97 <=? n) && (n <=? 122))%nat then ascii_of_nat (n - 32) else c.

Fixpoint upper (s : string) : string :=
  match s with
  | EmptyString => EmptyString
  | String c s' => String (upper_ascii c) (upper s')
  end.

(** [needle in hay] for two strings. *)
Fixpoint str_in (needle hay : string) {struct hay} : bool :=
  if String.prefix needle hay then true
  else match hay with
       | EmptyString => false
       | String _ hay' => str_in needle hay'
       end.

(** [x.upper()] *)
Definition py_upper (x : pyval) : res string :=
  match x with
  | PStr s => Ok (upper s)
  | _ => Raise AttributeError
  end.

(** ** Dict access, iteration and numeric conversion *)

(** [x.get(k, default)] *)
Definition py_get (x : pyval) (k : string) (default : pyval) : res pyval :=
  match x with
  | PDict kvs => Ok (match lookup k kvs with Some v => v | None => default end)
  | _ => Raise AttributeError
  end.

(** [x[k]] for a string key *)
Definition py_getitem (x : pyval) (k : string) : res pyval :=
  match x with
  | PDict kvs => match lookup k kvs with Some v => Ok v | None => Raise KeyError end
  | _ => Raise TypeError
  end.

Fixpoint chars (s : string) : list pyval :=
  match s with
  | EmptyString => []
  | String c s' => PStr (String c EmptyString) :: chars s'
  end.

(** The elements [for cloud in x] visits: the items of a list, the keys of a
    dict, the characters of a string (here its bytes); other values are not
    iterable.  A key or a character is a str, on which the loop body raises
    at once, so only their number being zero or not matters. *)
Definition py_iter (x : pyval) : res (list pyval) :=
  match x with
  | PList l => Ok l
  | PDict kvs => Ok (map (fun kv => PStr (fst kv)) kvs)
  | PStr s => Ok (chars s)
  | _ => Raise TypeError
  end.

(** [float(z)] for an int: exact up to 53 bits, otherwise rounded to 53
    significant bits, ties to even; OverflowError from 2^1024 on. *)
Definition float_of_Z (z : Z) : res pyfloat :=
  let a := Z.abs z in
  let n := Z.log2 a + 1 in
  if n <=? 53 then Ok (FFin (inject_Z z))
  else
    let sh := n - 53 in
    let q := Z.shiftr a sh in
    let r := Z.land a (Z.ones sh) in
    let half := Z.shiftl 1 (sh - 1) in
    let q' := if (half <? r) || ((r =? half) && Z.odd q) then q + 1 else q in
    let m := Z.shiftl q' sh in
    if 2 ^ 1024 <=? m then Raise OverflowError
    else Ok (FFin (inject_Z (Z.sgn z * m))).

(** [int(q)] for a finite float: truncation toward zero. *)
Definition truncate (q : Q) : Z := Z.quot (Qnum q) (Zpos (Qden q)).

(** Python's parsers of numeric strings, [float(s)] and [int(s)] for a str
    [s].  The script only calls them; they are taken as given. *)
Class PyStr : Type := {
  str_to_float : string -> res pyfloat;
  str_to_int : string -> res Z
}.

Section Conversions.
Context {py : PyStr}.

(** [float(x)] *)
Definition py_float (x : pyval) : res pyfloat :=
  match x with
  | PFloat f => Ok f
  | PInt z => float_of_Z z
  | PBool b => Ok (FFin (inject_Z (Z.b2z b)))
  | PStr s => str_to_float s
  | _ => Raise TypeError
  end.

(** [int(x)] *)
Definition py_int (x : pyval) : res Z :=
  match x with
  | PInt z => Ok z
  | PBool b => Ok (Z.b2z b)
  | PFloat (FFin q) => Ok (truncate q)
  | PFloat (FInf _) => Raise OverflowError
  | PFloat FNaN => Raise ValueError
  | PStr s => str_to_int s
  | _ => Raise TypeError
  end.

(** ** The field extractor (app.py, lines 105-115) *)

(** Lines 105-106:
    [vis_raw = data.get("visibility", {}).get("meters_float")]
    [vis = float(vis_raw) if vis_raw else None] *)
Definition read_visibility (data : pyval) : res pyval :=
  visibility <- py_get data "visibility" (PDict []) ;;
  vis_raw <- py_get visibility "meters_float" PNone ;;
  if truthy vis_raw then
    f <- py_float vis_raw ;; Ok (PFloat f)
  else Ok PNone.

(** Lines 107-111, the loop body over the remaining layers: the first layer
    whose [base_feet_agl] is truthy decides, and the loop breaks there. *)
Fixpoint first_ceiling (clouds : list pyval) : res pyval :=
  match clouds with
  | [] => Ok PNone
  | cloud :: rest =>
      base <- py_get cloud "base_feet_agl" PNone ;;
      if truthy base then
        b <- py_getitem cloud "base_feet_agl" ;;
        z <- py_int b ;;
        Ok (PInt z)
      else first_ceiling rest
  end.

(** Lines 107-111: [for cloud in data.get("clouds", []): ...] *)
Definition read_ceiling (data : pyval) : res pyval :=
  clouds <- py_get data "clouds" (PList []) ;;
  layers <- py_iter clouds ;;
  first_ceiling layers.

(** Lines 113-115: [if "CAVOK" in metar_raw.upper(): vis = 10000; ceiling = 5000] *)
Definition cavok_override (metar_raw : pyval) (vc : pyval * pyval) : res (pyval * pyval) :=
  up <- py_upper metar_raw ;;
  if str_in "CAVOK" up then Ok (PInt 10000, PInt 5000) else Ok vc.

(** Lines 105-115 together: the pair (vis, ceiling) handed to the classifier. *)
Definition extract (data metar_raw : pyval) : res (pyval * pyval) :=
  vis <- read_visibility data ;;
  ceiling <- read_ceiling data ;;
  cavok_override metar_raw (vis, ceiling).

End Conversions.

(** ** The fetchers (app.py, lines 30-55) *)

(** What [requests.get(url)] returned: the status code and what [r.json()]
    gives (JSONDecodeError when the body is not JSON). *)
Record response := {
  status_code : Z;
  json : res pyval
}.

(** Each fetcher is given the outcome of its [requests.get] call, which is
    a response or a raised RequestException.  The [st.cache_data] decorator
    only memoises and is left out. *)
Definition get_metar (request : res response) : res (pyval * pyval) :=
  r <- request ;;
  if status_code r =? 200 then
    data <- json r ;;
    raw <- py_get data "raw" (PStr "") ;;
    sanitized <- py_get data "sanitized" (PStr "") ;;
    Ok (raw, sanitized)
  else Ok (PNone, PNone).

Definition get_taf (request : res response) : res (pyval * pyval) :=
  r <- request ;;
  if status_code r =? 200 then
    data <- json r ;;
    raw <- py_get data "raw" (PStr "") ;;
    sanitized <- py_get data "sanitized" (PStr "") ;;
    Ok (raw, sanitized)
  else Ok (PNone, PNone).

Definition get_station_name (request : res response) : res (pyval * pyval * pyval) :=
  r <- request ;;
  if status_code r =? 200 then
    data <- json r ;;
    name <- py_get data "name" (PStr "Unknown name") ;;
    latitude <- py_get data "latitude" PNone ;;
    longitude <- py_get data "longitude" PNone ;;
    Ok (name, latitude, longitude)
  else Ok (PStr "Unknown name", PNone, PNone).

(** ** The rendered page *)

(** One constructor per Streamlit call of the script.  An event carries the
    values the call interpolates, not the formatted text. *)
Inductive ui :=
| Subheader (station_name : pyval) (icao : string)  (* line 94 *)
| Map (lat lon : pyval)                             (* line 98 *)
| Expander (title : string) (body : list ui)        (* lines 100, 135 *)
| Readings (vis ceiling : pyval)                    (* line 117 *)
| FlightConditions (rules color : string)           (* lines 121-125 *)
| Info (message : string)
| Warning (message : string)
| Code (body : pyval)
| Caption (body : pyval)
| Legend                                            (* lines 142-150 *)
| Divider
| Error (e : exn).                                  (* line 155 *)

(** A script step appends to the events rendered so far and returns a value
    or raises; what was rendered before an exception stays on the page. *)
Definition script (A : Type) : Type := list ui -> res A * list ui.

Definition bind_script {A B} (m : script A) (k : A -> script B) : script B :=
  fun page =>
    match m page with
    | (Ok a, page') => k a page'
    | (Raise e, page') => (Raise e, page')
    end.

Declare Scope script_scope.
Delimit Scope script_scope with script.
Notation "x <- m ;; k" := (bind_script m (fun x => k))
  (at level 61, m at next level, right associativity) : script_scope.
Notation "' pat <- m ;; k" := (bind_script m (fun x => match x with pat => k end))
  (at level 61, pat pattern, m at next level, right associativity) : script_scope.
Notation "m1 ;; m2" := (bind_script m1 (fun _ => m2))
  (at level 61, right associativity) : script_scope.

(** A Streamlit call that renders its event whatever value it is given.  The
    one call of the script that can raise on its arguments, [st.map], is
    [st_map] below. *)
Definition st (event : ui) : script unit :=
  fun page => (Ok tt, (page ++ [event])%list).

(** An expression evaluated inside the script. *)
Definition eval {A} (m : res A) : script A :=
  fun page => (m, page).

Definition skip : script unit := fun page => (Ok tt, page).

(** Lines 97-98: [pd.DataFrame] on the two coordinates and [st.map] on the
    frame.  Whether a pair of coordinates is drawn or raises (a truthy pair
    of strings raises TypeError) is decided by pandas and Streamlit and is
    taken as given. *)
Class Streamlit : Type := {
  map_call : pyval -> pyval -> res unit
}.

(** The map is rendered when the call returns; an exception leaves the page
    as it was and goes to the enclosing handler. *)
Definition st_map {sl : Streamlit} (lat lon : pyval) : script unit :=
  (eval (map_call lat lon) ;; st (Map lat lon))%script.

(** [try: body / except: handler] *)
Definition try_except (body : script unit) (handler : exn -> script unit) : script unit :=
  fun page =>
    match body page with
    | (Ok a, page') => (Ok a, page')
    | (Raise e, page') => handler e page'
    end.

(** [with st.expander(title): body] *)
Definition expander (title : string) (body : script unit) : script unit :=
  fun page =>
    let '(r, inside) := body [] in
    (r, (page ++ [Expander title inside])%list).

Definition METAR_title : string := "📄 METAR (Current observation)".
Definition TAF_title : string := "🗓️ TAF (Aeronautical forecast)".

(** Line 120: the colour of the banner, by substring tests on [rules]. *)
Definition banner_color (rules : string) : string :=
  if str_in "VFR" rules then "green"
  else if str_in "MVFR" rules then "orange"
  else if str_in "IFR" rules then "red"
  else "#8B0000".

Section Page.
Context {py : PyStr} {sl : Streamlit}.

(** Lines 102-125: the body of the inner [try]. *)
Definition analysis (metar_raw : pyval) (request : res response) : script unit :=
  (r <- eval request ;;
   data <- eval (json r) ;;
   ' (vis, ceiling) <- eval (extract data metar_raw) ;;
   st (Readings vis ceiling) ;;
   rules <- eval (get_flight_rules vis ceiling) ;;
   st (FlightConditions rules (banner_color rules)))%script.

(** Lines 101-133: what the METAR expander holds.  The bare [except:]
    swallows whatever the analysis raises. *)
Definition metar_block (metar_raw metar_text : pyval) (request : res response) : script unit :=
  (try_except (analysis metar_raw request)
     (fun _ => st (Info "Unable to analyze VFR/IFR conditions.")) ;;
   if truthy metar_raw then
     (st (Code metar_raw) ;; st (Caption metar_text))
   else st (Warning "METAR data unavailable."))%script.

(** Lines 136-140: what the TAF expander holds. *)
Definition taf_block (taf_raw taf_text : pyval) : script unit :=
  (if truthy taf_raw then
     (st (Code taf_raw) ;; st (Caption taf_text))
   else st (Warning "TAF data unavailable."))%script.

(** The outcomes of the four [requests.get] calls of one run, in the order
    of the calls: lines 33, 42, 51 and 103. *)
Record world := {
  metar_get : res response;
  taf_get : res response;
  station_get : res response;
  analysis_get : res response
}.

(** Lines 85-157: the run for one submission of the form.  The title, the
    welcome text and the footer are the same on every page and are left
    out.  The typed code is upper-cased with [upper]: letters outside ASCII
    stay as typed, which concerns only the text the subheader carries. *)
Definition main (w : world) (submit : bool) (text_input : string) : script unit :=
  let icao_input := upper text_input in
  if submit && truthy (PStr icao_input) then
    try_except
      (' (metar_raw, metar_text) <- eval (get_metar (metar_get w)) ;;
       ' (taf_raw, taf_text) <- eval (get_taf (taf_get w)) ;;
       ' (station_name, lat, lon) <- eval (get_station_name (station_get w)) ;;
       st (Subheader station_name icao_input) ;;
       (if truthy lat && truthy lon then st_map lat lon else skip) ;;
       expander METAR_title (metar_block metar_raw metar_text (analysis_get w)) ;;
       expander TAF_title (taf_block taf_raw taf_text) ;;
       st Legend ;;
       st Divider)%script
      (fun e => st (Error e))
  else st (Info "🛩️ Enter a valid ICAO code to display weather data.").

(** What a block renders on its own. *)
Definition rendered (block : script unit) : list ui := snd (block []).

(** The page one run renders. *)
Definition render (w : world) (submit : bool) (text_input : string) : list ui :=
  snd (main w submit text_input []).

End Page.

(** ** Reading the aggregate off the page *)

Fixpoint expander_body (title : string) (page : list ui) : option (list ui) :=
  match page with
  | [] => None
  | Expander t body :: rest =>
      if String.eqb t title then Some body else expander_body title rest
  | _ :: rest => expander_body title rest
  end.

(** The classifier's result as displayed by the banner, if any. *)
Fixpoint shown_rules (events : list ui) : option string :=
  match events with
  | [] => None
  | FlightConditions rules _ :: _ => Some rules
  | _ :: rest => shown_rules rest
  end.

(** The derived visibility and ceiling as displayed, if any. *)
Fixpoint shown_readings (events : list ui) : option (pyval * pyval) :=
  match events with
  | [] => None
  | Readings vis ceiling :: _ => Some (vis, ceiling)
  | _ :: rest => shown_readings rest
  end.

(** The report text displayed in an expander, if any. *)
Fixpoint shown_text (events : list ui) : option pyval :=
  match events with
  | [] => None
  | Code body :: _ => Some body
  | _ :: rest => shown_text rest
  end.

Fixpoint shown_station (page : list ui) : option pyval :=
  match page with
  | [] => None
  | Subheader name _ :: _ => Some name
  | _ :: rest => shown_station rest
  end.

Definition category_of (page : list ui) : option string :=
  match expander_body METAR_title page with
  | Some body => shown_rules body
  | None => None
  end.

Definition readings_of (page : list ui) : option (pyval * pyval) :=
  match expander_body METAR_title page with
  | Some body => shown_readings body
  | None => None
  end.

Definition forecast_of (page : list ui) : option pyval :=
  match expander_body TAF_title page with
  | Some body => shown_text body
  | None => None
  end.

(** ** Notions used by the statements *)

(** The raw text mentions CAVOK in some letter case. *)
Definition mentions_cavok (s : string) : Prop :=
  exists pre w post, s = pre ++ w ++ post /\ upper w = "CAVOK".

(** A layer's reported base, when the layer is an object and the base an int. *)
Definition layer_base (cloud : pyval) : option Z :=
  match cloud with
  | PDict kvs =>
      match lookup "base_feet_agl" kvs with
      | Some (PInt z) => Some z
      | _ => None
      end
  | _ => None
  end.

(** A layer as the provider documents it: an object whose base is missing,
    null, or a non-zero int. *)
Definition plain_layer (cloud : pyval) : bool :=
  match cloud with
  | PDict kvs =>
      match lookup "base_feet_agl" kvs with
      | None | Some PNone => true
      | Some (PInt z) => negb (z =? 0)
      | _ => false
      end
  | _ => false
  end.

(** The bases of the layers that have one, in reported order. *)
Definition defined_bases (clouds : list pyval) : list Z :=
  flat_map (fun cloud => match layer_base cloud with Some z => [z] | None => [] end) clouds.

(** The first defined base. *)
Definition first_base (clouds : list pyval) : option Z :=
  match defined_bases clouds with
  | [] => None
  | z :: _ => Some z
  end.

(** The lowest defined base, as the data model words the ceiling. *)
Definition lowest_base (clouds : list pyval) : option Z :=
  match defined_bases clouds with
  | [] => None
  | z :: zs => Some (fold_left Z.min zs z)
  end.

(** An optional int as the script holds it. *)
Definition of_option (o : option Z) : pyval :=
  match o with
  | Some z => PInt z
  | None => PNone
  end.

(** Lines 94-98: the header the station lookup contributes. *)
Definition station_header (name lat lon : pyval) (icao : string) : list ui :=
  Subheader name icao :: (if truthy lat && truthy lon then [Map lat lon] else []).

(** [d.get(k, default)] once the key has been looked up. *)
Definition or_default (o : option pyval) (default : pyval) : pyval :=
  match o with
  | Some v => v
  | None => default
  end.

(** A world that differs from [w] in the station request only. *)
Definition with_station (w : world) (request : res response) : world :=
  {| metar_get := metar_get w; taf_get := taf_get w;
     station_get := request; analysis_get := analysis_get w |}.


(** The map step of lines 96-98 goes through: no map is asked for, or the
    call returns. *)
Definition map_returns {sl : Streamlit} (lat lon : pyval) : Prop :=
  truthy lat && truthy lon = false \/ map_call lat lon = Ok tt.

(** A stand-in for pandas and Streamlit that draws every pair.  It is used
    only to run the model on concrete worlds. *)
Definition map_always_renders : Streamlit :=
  {| map_call := fun _ _ => Ok tt |}.

(** A stand-in that raises TypeError when a coordinate is a string and
    draws every other pair. *)
Definition map_rejects_strings : Streamlit :=
  {| map_call := fun lat lon =>
       match lat, lon with
       | PStr _, _ | _, PStr _ => Raise TypeError
       | _, _ => Ok tt
       end |}.

(** A stand-in for the string parsers that rejects every string.  It is
    used only to run the model on payloads whose numeric fields are numbers,
    where the parsers are never called. *)
Definition no_numeric_strings : PyStr :=
  {| str_to_float := fun _ => Raise ValueError;
     str_to_int := fun _ => Raise ValueError |}.

(** ** Notions used by the further statements *)

(** The categories from the most to the least restrictive. *)
Definition rank (cat : FlightCategory) : Z :=
  match cat with
  | INSUFFICIENT_DATA => -1
  | LIFR => 0
  | IFR => 1
  | MVFR => 2
  | VFR => 3
  end.

(** The more restrictive of two categories. *)
Definition worse (a b : FlightCategory) : FlightCategory :=
  if rank a <=? rank b then a else b.

(** The category one reading reaches on its own, given its three
    thresholds: the comparisons are the classifier's. *)
Definition grade (x : pyval) (vfr mvfr ifr : Z) : res FlightCategory :=
  a <- py_ge x vfr ;;
  if a then Ok VFR
  else
    b <- py_ge x mvfr ;;
    if b then Ok MVFR
    else
      c <- py_ge x ifr ;;
      if c then Ok IFR else Ok LIFR.

Definition visibility_grade (v : pyval) : res FlightCategory := grade v 5000 3000 1600.
Definition ceiling_grade (c : pyval) : res FlightCategory := grade c 1500 1000 500.

(** [v'] is at least as large as [v]: it reaches every threshold [v] does. *)
Definition no_worse (v v' : pyval) : Prop :=
  forall k, reaches v k -> reaches v' k.

(** The colour the banner of a category gets. *)
Definition shown_color (cat : FlightCategory) : string :=
  match cat with
  | VFR | MVFR => "green"
  | IFR | LIFR => "red"
  | INSUFFICIENT_DATA => "#8B0000"
  end.

(** A layer the ceiling loop steps over: an object whose base is falsy. *)
Definition stepped_over (cloud : pyval) : bool :=
  match cloud with
  | PDict kvs => negb (truthy (or_default (lookup "base_feet_agl" kvs) PNone))
  | _ => false
  end.

Definition is_dict (v : pyval) : bool :=
  match v with PDict _ => true | _ => false end.

(** The values [for ... in x] raises TypeError on. *)
Definition not_iterable (v : pyval) : bool :=
  match v with
  | PNone | PBool _ | PInt _ | PFloat _ => true
  | _ => false
  end.

(** The first of the three fetchers, in call order, that raises. *)
Definition first_failure (w : world) : option exn :=
  match get_metar (metar_get w) with
  | Raise e => Some e
  | Ok _ =>
      match get_taf (taf_get w) with
      | Raise e => Some e
      | Ok _ =>
          match get_station_name (station_get w) with
          | Raise e => Some e
          | Ok _ => None
          end
      end
  end.

(** Lines 129-133: how the raw text is displayed below the analysis. *)
Definition metar_display (metar_raw metar_text : pyval) : list ui :=
  if truthy metar_raw then [Code metar_raw; Caption metar_text]
  else [Warning "METAR data unavailable."].

(** A page event of a given kind. *)
Definition is_error (event : ui) : bool :=
  match event with Error _ => true | _ => false end.

Definition is_map (event : ui) : bool :=
  match event with Map _ _ => true | _ => false end.

(** A world that differs from [w] in the analysis request only. *)
Definition with_analysis (w : world) (request : res response) : world :=
  {| metar_get := metar_get w; taf_get := taf_get w;
     station_get := station_get w; analysis_get := request |}.

(** ** The city weather fetcher (app.py, lines 9-28) *)

(** [k in x] for a str [k]: a key of a dict, an item of a list, a substring
    of a str; other values are not containers. *)
Definition py_contains (k : string) (x : pyval) : res bool :=
  match x with
  | PDict kvs => Ok (match lookup k kvs with Some _ => true | None => false end)
  | PList l =>
      Ok (existsb (fun v => match v with PStr s => String.eqb s k | _ => false end) l)
  | PStr s => Ok (str_in k s)
  | _ => Raise TypeError
  end.

(** [get_weather] can raise one more exception than the METAR code:
    IndexError, at [data['weather'][0]]. *)
Inductive weather_exn :=
| Exn (e : exn)
| IndexError.

Inductive weather_res (A : Type) :=
| Returns (a : A)
| Raises (e : weather_exn).
Arguments Returns {A} a.
Arguments Raises {A} e.

Definition bind_weather {A B} (m : weather_res A) (k : A -> weather_res B) : weather_res B :=
  match m with
  | Returns a => k a
  | Raises e => Raises e
  end.

Definition lift {A} (m : res A) : weather_res A :=
  match m with
  | Ok a => Returns a
  | Raise e => Raises (Exn e)
  end.

Declare Scope weather_scope.
Delimit Scope weather_scope with weather.
Notation "x <- m ;; k" := (bind_weather m (fun x => k))
  (at level 61, m at next level, right associativity) : weather_scope.

(** [x[0]]: the first item of a list or character of a str; no JSON object
    has the key 0. *)
Definition py_first (x : pyval) : weather_res pyval :=
  match x with
  | PList (v :: _) => Returns v
  | PList [] => Raises IndexError
  | PStr (String c _) => Returns (PStr (String c EmptyString))
  | PStr EmptyString => Raises IndexError
  | PDict _ => Raises (Exn KeyError)
  | _ => Raises (Exn TypeError)
  end.

(** [round(wind * 1.94384, 1)] on a number: binary floating-point
    arithmetic, taken as given. *)
Class PyArith : Type := {
  knots : pyval -> res pyfloat
}.

(** The dict [get_weather] returns, one field per key; [w_icon] is the value
    interpolated into the icon URL. *)
Record weather := {
  w_temp : pyval;
  w_desc : pyval;
  w_icon : pyval;
  w_wind : pyfloat;
  w_pressure : pyval;
  w_city : string
}.

(** Lines 10-28; [None] is the function's [return None]. *)
Definition get_weather {ar : PyArith} (request : res response) (city : string)
  : weather_res (option weather) :=
  (r <- lift request ;;
   data <- lift (json r) ;;
   present <- lift (py_and (py_contains "main" data) (py_contains "weather" data)) ;;
   if present then
     main_temp <- lift (py_getitem data "main") ;;
     temp <- lift (py_getitem main_temp "temp") ;;
     weather_desc <- lift (py_getitem data "weather") ;;
     first_desc <- py_first weather_desc ;;
     desc <- lift (py_getitem first_desc "description") ;;
     weather_icon <- lift (py_getitem data "weather") ;;
     first_icon <- py_first weather_icon ;;
     icon <- lift (py_getitem first_icon "icon") ;;
     wind_speed <- lift (py_getitem data "wind") ;;
     wind <- lift (py_getitem wind_speed "speed") ;;
     main_pressure <- lift (py_getitem data "main") ;;
     pressure <- lift (py_getitem main_pressure "pressure") ;;
     speed <- lift (if is_number wind then knots wind else Raise TypeError) ;;
     Returns (Some {| w_temp := temp; w_desc := desc; w_icon := icon;
                      w_wind := speed; w_pressure := pressure; w_city := city |})
   else Returns None)%weather.

(** A stand-in for the float arithmetic that always overflows.  It is used
    only to run [get_weather] on payloads where the conversion is not
    reached. *)
Definition no_arithmetic : PyArith :=
  {| knots := fun _ => Raise OverflowError |}.

(** * Properties *)

(** ** The model on concrete values *)

Example float_of_Z_small : float_of_Z 9000 = Ok (FFin 9000).
Proof. reflexivity. Qed.

(** [float(2**53 + 1) == 2.0**53] and [float(2**53 + 3) == 2.0**53 + 4]:
    ties go to the even significand. *)
Example float_of_Z_ties :
  float_of_Z (2 ^ 53 + 1) = Ok (FFin (inject_Z (2 ^ 53))) /\
  float_of_Z (2 ^ 53 + 3) = Ok (FFin (inject_Z (2 ^ 53 + 4))).
Proof. split; reflexivity. Qed.

Example float_of_Z_overflow :
  float_of_Z (2 ^ 1024 - 1) = Raise OverflowError /\
  float_of_Z (- (2 ^ 1024 - 2 ^ 970 - 1)) = Ok (FFin (inject_Z (- (2 ^ 1024 - 2 ^ 971)))).
Proof. split; vm_compute; reflexivity. Qed.

Example truncate_toward_zero : truncate 1500.5 = 1500 /\ truncate (- 0.5) = 0.
Proof. split; reflexivity. Qed.

Example upper_mixed : upper "lfpg Cavok 18/09" = "LFPG CAVOK 18/09".
Proof. reflexivity. Qed.

Example str_in_cases :
  str_in "CAVOK" "LFPG CAVOK 18/09" = true /\
  str_in "CAVOK" "LFPG 9999 FEW040" = false /\
  str_in "VFR" "MVFR (Marginal VFR)" = true.
Proof. repeat split. Qed.

(** A zero reading is falsy, like [None]; nan and the infinities are truthy. *)
Example truthy_cases :
  truthy (PFloat (FFin 0)) = false /\ truthy (PInt 0) = false /\
  truthy PNone = false /\ truthy (PFloat FNaN) = true /\
  truthy (PDict []) = false /\ truthy (PStr "0") = true.
Proof. repeat split. Qed.

(** The banner of an MVFR result is green too: its label contains "VFR". *)
(** A station whose coordinates are truthy strings: the map call raises
    inside the outer [try], and the handler leaves the subheader and the
    error, without the METAR and TAF sections. *)
Example map_call_raises :
  let station :=
    {| status_code := 200;
       json := Ok (PDict [("name", PStr "Paris-Charles de Gaulle");
                          ("latitude", PStr "north"); ("longitude", PStr "east")]) |} in
  let metar :=
    {| status_code := 200; json := Ok (PDict [("raw", PStr "LFPG 031200Z CAVOK")]) |} in
  let w := {| metar_get := Ok metar; taf_get := Ok metar;
              station_get := Ok station; analysis_get := Ok metar |} in
  render (py := no_numeric_strings) (sl := map_rejects_strings) w true "lfpg" =
    [Subheader (PStr "Paris-Charles de Gaulle") "LFPG"; Error TypeError] /\
  first_failure w = None.
Proof. split; reflexivity. Qed.

Example banner_color_cases :
  banner_color (label VFR) = "green" /\ banner_color (label MVFR) = "green" /\
  banner_color (label IFR) = "red" /\ banner_color (label LIFR) = "red" /\
  banner_color (label INSUFFICIENT_DATA) = "#8B0000".
Proof. repeat split. Qed.

(** ** Comparisons *)

Lemma py_ge_true_iff (v : pyval) (k : Z) : py_ge v k = Ok true <-> reaches v k.
Proof.
  destruct v as [ | b | z | [q | negative | ] | s | l | kvs]; simpl;
    try (split; [discriminate | contradiction]).
  - rewrite <- Z.leb_le. split; [now inversion 1 | now intros ->].
  - rewrite <- Z.leb_le. split; [now inversion 1 | now intros ->].
  - rewrite <- Qle_bool_iff. split; [now inversion 1 | now intros ->].
  - destruct negative; simpl; split; congruence.
Qed.

Lemma py_ge_decides (v : pyval) (k : Z) :
  is_number v = true ->
  (py_ge v k = Ok true /\ reaches v k) \/ (py_ge v k = Ok false /\ ~ reaches v k).
Proof.
  intros Hv.
  assert (Hb : exists b, py_ge v k = Ok b).
  { destruct v as [ | b | z | [q | negative | ] | s | l | kvs];
      try discriminate; simpl; eauto. }
  destruct Hb as [[ | ] Hb].
  - left. split; [exact Hb | now apply py_ge_true_iff].
  - right. split; [exact Hb | ].
    intros Hr. apply py_ge_true_iff in Hr. congruence.
Qed.

Lemma number_not_None (v : pyval) : is_number v = true -> is_None v = false.
Proof. destruct v; simpl; congruence. Qed.

(** The classifier on two numbers, with the three guards decided. *)
Lemma get_flight_rules_numbers (v c : pyval) :
  is_number v = true -> is_number c = true ->
  get_flight_rules v c =
    (vfr <- py_and (py_ge v 5000) (py_ge c 1500) ;;
     if vfr then Ok (label VFR)
     else
       mvfr <- py_and (py_ge v 3000) (py_ge c 1000) ;;
       if mvfr then Ok (label MVFR)
       else
         ifr <- py_and (py_ge v 1600) (py_ge c 500) ;;
         if ifr then Ok (label IFR) else Ok (label LIFR)).
Proof.
  intros Hv Hc. unfold get_flight_rules.
  now rewrite (number_not_None v Hv), (number_not_None c Hc).
Qed.

(** Decides the six comparisons of the classifier on two numbers and
    rewrites them in the goal. *)
Ltac decide_guards v c Hv Hc :=
  rewrite (get_flight_rules_numbers v c Hv Hc);
  destruct (py_ge_decides v 5000 Hv) as [[-> ?] | [-> ?]];
  destruct (py_ge_decides c 1500 Hc) as [[-> ?] | [-> ?]];
  destruct (py_ge_decides v 3000 Hv) as [[-> ?] | [-> ?]];
  destruct (py_ge_decides c 1000 Hc) as [[-> ?] | [-> ?]];
  destruct (py_ge_decides v 1600 Hv) as [[-> ?] | [-> ?]];
  destruct (py_ge_decides c 500 Hc) as [[-> ?] | [-> ?]];
  simpl.

Lemma label_injective (a b : FlightCategory) : label a = label b -> a = b.
Proof. destruct a, b; simpl; intros H; first [reflexivity | discriminate H]. Qed.

(** [reaches] is downward closed in the threshold. *)
Lemma reaches_mono (v : pyval) (k k' : Z) : k' <= k -> reaches v k -> reaches v k'.
Proof.
  intros Hk.
  destruct v as [ | b | z | [q | negative | ] | s | l | kvs]; simpl; try tauto; try lia.
  intros Hq. apply Qle_trans with (inject_Z k); [ | exact Hq].
  now rewrite <- Zle_Qle.
Qed.

(** ** The classifier *)

(** C1: on two present numbers the classifier is the rule table read top to
    bottom with inclusive lower bounds: VFR when v >= 5000 and c >= 1500,
    otherwise MVFR when v >= 3000 and c >= 1000, otherwise IFR when
    v >= 1600 and c >= 500, otherwise LIFR; and the four scenarios
    (6000, 2000), (3500, 1000), (1700, 600), (800, 200) give VFR, MVFR, IFR
    and LIFR. *)
Theorem C1_rule_table :
  (forall v c : pyval,
     is_number v = true -> is_number c = true ->
     let r := get_flight_rules v c in
     let vfr := reaches v 5000 /\ reaches c 1500 in
     let mvfr := reaches v 3000 /\ reaches c 1000 in
     let ifr := reaches v 1600 /\ reaches c 500 in
     (vfr -> r = Ok (label VFR)) /\
     (~ vfr -> mvfr -> r = Ok (label MVFR)) /\
     (~ vfr -> ~ mvfr -> ifr -> r = Ok (label IFR)) /\
     (~ vfr -> ~ mvfr -> ~ ifr -> r = Ok (label LIFR))) /\
  get_flight_rules (PFloat (FFin 6000)) (PInt 2000) = Ok (label VFR) /\
  get_flight_rules (PFloat (FFin 3500)) (PInt 1000) = Ok (label MVFR) /\
  get_flight_rules (PFloat (FFin 1700)) (PInt 600) = Ok (label IFR) /\
  get_flight_rules (PFloat (FFin 800)) (PInt 200) = Ok (label LIFR).
Proof.
  split; [ | repeat split; reflexivity].
  intros v c Hv Hc r vfr mvfr ifr. subst r vfr mvfr ifr.
  decide_guards v c Hv Hc; repeat split; intros; tauto.
Qed.

Lemma C1_rule_table_witness :
  get_flight_rules (PFloat (FFin 6000)) (PInt 2000) = Ok (label VFR).
Proof.
  refine (proj1 (proj1 C1_rule_table (PFloat (FFin 6000)) (PInt 2000) eq_refl eq_refl) _).
  split; simpl; [discriminate | lia].
Defined.

(** C3: with either argument absent the classifier answers
    INSUFFICIENT_DATA whatever the other argument is (a number or not); the
    [is None] test comes before the comparisons, which would raise TypeError
    on the absent value, so no exception is raised. *)
Theorem C3_absent_first (v c : pyval) :
  get_flight_rules v PNone = Ok (label INSUFFICIENT_DATA) /\
  get_flight_rules PNone c = Ok (label INSUFFICIENT_DATA) /\
  (forall k, py_ge PNone k = Raise TypeError).
Proof.
  repeat split.
  unfold get_flight_rules. now rewrite orb_true_r.
Qed.

(** C6, the claim as worded, fails: visibility 3500 lies in [3000, 5000)
    but with ceiling 200 the classifier answers LIFR, not MVFR. *)
Lemma C6_region_counterexample :
  (reaches (PInt 3500) 3000 /\ ~ reaches (PInt 3500) 5000) /\
  get_flight_rules (PInt 3500) (PInt 200) = Ok (label LIFR) /\
  label LIFR <> label MVFR.
Proof.
  repeat split; simpl; try lia. discriminate.
Qed.

(** C6, amended: for two present numbers with 3000 <= v < 5000 and
    c >= 1000, or v >= 5000 and 1000 <= c < 1500, the classifier answers
    MVFR, and on numbers it answers MVFR in no other case; at the boundary
    (3000, 1000) gives MVFR and (2999, 1000) gives IFR. *)
Theorem C6_mvfr_region :
  (forall v c : pyval,
     is_number v = true -> is_number c = true ->
     ((reaches v 3000 /\ ~ reaches v 5000 /\ reaches c 1000) \/
      (reaches v 5000 /\ reaches c 1000 /\ ~ reaches c 1500)) <->
     get_flight_rules v c = Ok (label MVFR)) /\
  get_flight_rules (PInt 3000) (PInt 1000) = Ok (label MVFR) /\
  get_flight_rules (PInt 2999) (PInt 1000) = Ok (label IFR).
Proof.
  split; [ | split; reflexivity].
  intros v c Hv Hc.
  assert (M : forall x k k', k' <= k -> reaches x k -> reaches x k')
    by (intros; eapply reaches_mono; eauto).
  pose proof (M v 5000 3000 ltac:(lia)). pose proof (M c 1500 1000 ltac:(lia)).
  decide_guards v c Hv Hc; split; intros; try tauto; try discriminate.
Qed.

Lemma C6_mvfr_region_witness :
  get_flight_rules (PFloat (FFin 4000)) (PInt 2000) = Ok (label MVFR).
Proof.
  refine (proj1 (proj1 C6_mvfr_region (PFloat (FFin 4000)) (PInt 2000) eq_refl eq_refl) _).
  left. split; [ | split]; simpl; unfold Qle; simpl; lia.
Defined.

(** Two numbers always get one of the four numeric categories. *)
Lemma numbers_classified (v c : pyval) :
  is_number v = true -> is_number c = true ->
  exists cat, cat <> INSUFFICIENT_DATA /\ get_flight_rules v c = Ok (label cat).
Proof.
  intros Hv Hc.
  decide_guards v c Hv Hc;
    first [ exists VFR; split; [discriminate | reflexivity]
          | exists MVFR; split; [discriminate | reflexivity]
          | exists IFR; split; [discriminate | reflexivity]
          | exists LIFR; split; [discriminate | reflexivity] ].
Qed.

(** C9: on two present, non-negative numbers exactly one of the four
    numeric categories is produced, and never INSUFFICIENT_DATA. *)
Theorem C9_exactly_one_numeric (v c : pyval) :
  is_number v = true -> is_number c = true ->
  reaches v 0 -> reaches c 0 ->
  (exists! cat : FlightCategory, get_flight_rules v c = Ok (label cat)) /\
  (get_flight_rules v c = Ok (label VFR) \/
   get_flight_rules v c = Ok (label MVFR) \/
   get_flight_rules v c = Ok (label IFR) \/
   get_flight_rules v c = Ok (label LIFR)) /\
  get_flight_rules v c <> Ok (label INSUFFICIENT_DATA).
Proof.
  intros Hv Hc _ _.
  destruct (numbers_classified v c Hv Hc) as (cat & Hcat & Hr). rewrite Hr.
  split; [ | split].
  - exists cat. split; [reflexivity | ].
    intros cat' H. inversion H as [H']. now apply label_injective.
  - destruct cat; simpl; auto. contradiction.
  - intros H. apply Hcat, label_injective. congruence.
Qed.

Lemma C9_exactly_one_numeric_witness :
  get_flight_rules (PFloat (FFin 800)) (PInt 200) <> Ok (label INSUFFICIENT_DATA).
Proof.
  refine (proj2 (proj2 (C9_exactly_one_numeric (PFloat (FFin 800)) (PInt 200)
                          eq_refl eq_refl _ _))).
  - simpl. discriminate.
  - simpl. lia.
Defined.

(** ** Strings *)

Lemma upper_app (a b : string) : upper (a ++ b) = upper a ++ upper b.
Proof. induction a as [ | c a IH]; simpl; [reflexivity | now rewrite IH]. Qed.

Lemma prefix_app (n post : string) : String.prefix n (n ++ post) = true.
Proof.
  induction n as [ | c n IH]; simpl; [now destruct post | ].
  destruct (ascii_dec c c); [exact IH | contradiction].
Qed.

Lemma str_in_prefix (n h : string) : String.prefix n h = true -> str_in n h = true.
Proof. destruct h; simpl; now intros ->. Qed.

Lemma str_in_app (n pre post : string) : str_in n (pre ++ n ++ post) = true.
Proof.
  induction pre as [ | c pre IH].
  - cbn [append]. apply str_in_prefix, prefix_app.
  - change (String c pre ++ n ++ post) with (String c (pre ++ n ++ post)).
    cbn [str_in]. rewrite IH.
    now destruct (String.prefix n (String c (pre ++ n ++ post))).
Qed.

Lemma mentions_cavok_found (s : string) :
  mentions_cavok s -> str_in "CAVOK" (upper s) = true.
Proof.
  intros (pre & w & post & -> & Hw).
  rewrite !upper_app, Hw. apply str_in_app.
Qed.

(** ** The field extractor *)

Section Extractor.
Context {py : PyStr}.

Lemma cavok_override_hit (s : string) (vc : pyval * pyval) :
  mentions_cavok s -> cavok_override (PStr s) vc = Ok (PInt 10000, PInt 5000).
Proof.
  intros H. unfold cavok_override. simpl.
  now rewrite (mentions_cavok_found s H).
Qed.

Lemma read_visibility_missing (kvs : list (string * pyval)) :
  lookup "visibility" kvs = None -> read_visibility (PDict kvs) = Ok PNone.
Proof. intros H. unfold read_visibility. simpl. now rewrite H. Qed.

Lemma read_ceiling_missing (kvs : list (string * pyval)) :
  lookup "clouds" kvs = None -> read_ceiling (PDict kvs) = Ok PNone.
Proof. intros H. unfold read_ceiling. simpl. now rewrite H. Qed.

(** C2, amended: when the raw text mentions CAVOK and the structured
    visibility and cloud-layer fields are read without an exception, the
    extractor yields (10000, 5000) whatever was read; in particular it does
    when both fields are missing from the payload. *)
Theorem C2_cavok_override (data : pyval) (s : string) :
  mentions_cavok s ->
  (forall vis ceiling,
     read_visibility data = Ok vis -> read_ceiling data = Ok ceiling ->
     extract data (PStr s) = Ok (PInt 10000, PInt 5000)) /\
  (forall kvs,
     data = PDict kvs ->
     lookup "visibility" kvs = None -> lookup "clouds" kvs = None ->
     extract data (PStr s) = Ok (PInt 10000, PInt 5000)).
Proof.
  intros H.
  assert (G : forall vis ceiling,
             read_visibility data = Ok vis -> read_ceiling data = Ok ceiling ->
             extract data (PStr s) = Ok (PInt 10000, PInt 5000)).
  { intros vis ceiling Hv Hc. unfold extract. rewrite Hv, Hc. simpl.
    now apply cavok_override_hit. }
  split; [exact G | ].
  intros kvs -> Hv Hc.
  apply (G PNone PNone); [now apply read_visibility_missing | now apply read_ceiling_missing].
Qed.

(** The first layer with a truthy base decides the ceiling. *)
Lemma first_ceiling_plain (clouds : list pyval) :
  forallb plain_layer clouds = true ->
  first_ceiling clouds = Ok (of_option (first_base clouds)).
Proof.
  induction clouds as [ | cloud rest IH]; [reflexivity | ].
  simpl forallb. intros H. apply andb_true_iff in H as [Hc Hrest].
  specialize (IH Hrest).
  destruct cloud as [ | | | | | | kvs]; try discriminate Hc.
  unfold first_base, defined_bases in *. simpl in *.
  destruct (lookup "base_feet_agl" kvs) as [[ | | z | | | | ] | ] eqn:E;
    try discriminate Hc; simpl; try exact IH.
  now rewrite Hc.
Qed.

End Extractor.

Lemma C2_cavok_override_witness :
  extract (py := no_numeric_strings) (PDict [("raw", PStr "LFPG 031200Z 24008KT CAVOK 18/09 Q1021")])
    (PStr "LFPG 031200Z 24008KT CAVOK 18/09 Q1021")
  = Ok (PInt 10000, PInt 5000).
Proof.
  refine (proj2 (C2_cavok_override (py := no_numeric_strings)
                   (PDict [("raw", PStr "LFPG 031200Z 24008KT CAVOK 18/09 Q1021")])
                   "LFPG 031200Z 24008KT CAVOK 18/09 Q1021" _) _ eq_refl eq_refl eq_refl).
  exists "LFPG 031200Z 24008KT ", "CAVOK", " 18/09 Q1021". split; reflexivity.
Defined.

(** C2, the claim as worded, fails: the override comes after the structured
    fields are read, so a payload whose visibility entry is null makes the
    read raise AttributeError and no pair is produced, although the raw text
    mentions CAVOK. *)
Lemma C2_unreadable_counterexample :
  let raw := "LFPG 031200Z 24008KT CAVOK 18/09 Q1021" in
  let data := PDict [("raw", PStr raw); ("visibility", PNone); ("clouds", PList [])] in
  mentions_cavok raw /\
  (forall py : PyStr, extract data (PStr raw) = Raise AttributeError) /\
  (forall py : PyStr,
     extract data (PStr raw) <> Ok (PInt 10000, PInt 5000)).
Proof.
  repeat split.
  - exists "LFPG 031200Z 24008KT ", "CAVOK", " 18/09 Q1021". split; reflexivity.
  - intros py. discriminate.
Qed.

Lemma fold_min_least (z : Z) (zs : list Z) :
  Forall (Z.le z) zs -> fold_left Z.min zs z = z.
Proof.
  induction zs as [ | a zs IH]; simpl; [reflexivity | ].
  intros H. inversion H as [ | ? ? Ha Hzs]; subst.
  rewrite Z.min_l by exact Ha. now apply IH.
Qed.

Lemma first_is_lowest (clouds : list pyval) :
  StronglySorted Z.le (defined_bases clouds) -> first_base clouds = lowest_base clouds.
Proof.
  unfold first_base, lowest_base.
  destruct (defined_bases clouds) as [ | z zs]; [reflexivity | ].
  intros H. inversion H; subst. now rewrite fold_min_least.
Qed.

(** C5, the claim as worded, fails: with a layer at 3000 ft reported before
    a layer at 1000 ft the extractor keeps 3000, while the lowest base is
    1000. *)
Lemma C5_lowest_counterexample :
  let clouds := [PDict [("base_feet_agl", PInt 3000)];
                 PDict [("base_feet_agl", PInt 1000)]] in
  (forall py : PyStr, read_ceiling (PDict [("clouds", PList clouds)]) = Ok (PInt 3000)) /\
  lowest_base clouds = Some 1000.
Proof. split; reflexivity. Qed.

(** C5, amended: over layers that are objects with a missing, null or
    non-zero integer base, the derived ceiling is the base of the first
    layer, in reported order, that has one, or absent when none has; it is
    the lowest base when the bases are reported in ascending order. *)
Theorem C5_first_defined_base {py : PyStr} (data : pyval) (clouds : list pyval) :
  py_get data "clouds" (PList []) = Ok (PList clouds) ->
  forallb plain_layer clouds = true ->
  read_ceiling data = Ok (of_option (first_base clouds)) /\
  (StronglySorted Z.le (defined_bases clouds) ->
   read_ceiling data = Ok (of_option (lowest_base clouds))).
Proof.
  intros Hd Hp.
  assert (G : read_ceiling data = Ok (of_option (first_base clouds))).
  { unfold read_ceiling. rewrite Hd. simpl. now apply first_ceiling_plain. }
  split; [exact G | ].
  intros Hs. now rewrite <- (first_is_lowest clouds Hs).
Qed.

Lemma C5_first_defined_base_witness :
  read_ceiling (py := no_numeric_strings)
    (PDict [("clouds", PList [PDict [("repr", PStr "FEW008")];
                              PDict [("base_feet_agl", PInt 1200)];
                              PDict [("base_feet_agl", PInt 4000)]])])
  = Ok (PInt 1200).
Proof.
  exact (proj1 (C5_first_defined_base (py := no_numeric_strings)
                  (PDict [("clouds", PList [PDict [("repr", PStr "FEW008")];
                                            PDict [("base_feet_agl", PInt 1200)];
                                            PDict [("base_feet_agl", PInt 4000)]])])
                  [PDict [("repr", PStr "FEW008")];
                   PDict [("base_feet_agl", PInt 1200)];
                   PDict [("base_feet_agl", PInt 4000)]]
                  eq_refl eq_refl)).
Defined.

(** [float] is exact on the ints of at most 53 bits. *)
Lemma float_of_Z_exact (z : Z) :
  Z.abs z < 2 ^ 53 -> float_of_Z z = Ok (FFin (inject_Z z)).
Proof.
  intros H. unfold float_of_Z. cbv zeta.
  destruct (Z.log2 (Z.abs z) + 1 <=? 53) eqn:E; [reflexivity | ].
  apply Z.leb_gt in E. exfalso.
  destruct (Z.eq_dec (Z.abs z) 0) as [Hz | Hz].
  - rewrite Hz in E. simpl in E. lia.
  - assert (Hl : Z.log2 (Z.abs z) < 53) by (apply Z.log2_lt_pow2; lia). lia.
Qed.

Lemma truncate_integer (z : Z) : truncate (inject_Z z) = z.
Proof. unfold truncate. simpl. apply Z.quot_1_r. Qed.

(** C7, the claim as worded, fails: a reported visibility of 0 is read as
    absent, and a base of 1500.5 ft becomes the ceiling 1500. *)
Lemma C7_pass_through_counterexample :
  let raw := "EGLL 031150Z 00000KT 0000 FG OVC015 09/09 Q1018" in
  let data := PDict [("visibility", PDict [("meters_float", PFloat (FFin 0))]);
                     ("clouds", PList [PDict [("base_feet_agl", PFloat (FFin 1500.5))]])] in
  str_in "CAVOK" (upper raw) = false /\
  (forall py : PyStr, extract data (PStr raw) = Ok (PNone, PInt 1500)).
Proof. split; reflexivity. Qed.

(** C7, amended: without a CAVOK override the extractor hands on what it
    read.  A visibility reported as a non-zero float, or as a non-zero int
    of at most 53 bits, is returned as a float of that value; the ceiling is the chosen layer's base converted to an int, which
    is the reported base when that is a non-zero integer and its truncation
    toward zero when it is a float (an integral float keeps its value). *)
Theorem C7_pass_through {py : PyStr} :
  (forall kvs vkvs f,
     lookup "visibility" kvs = Some (PDict vkvs) ->
     lookup "meters_float" vkvs = Some (PFloat f) ->
     truthy (PFloat f) = true ->
     read_visibility (PDict kvs) = Ok (PFloat f)) /\
  (forall kvs vkvs z,
     lookup "visibility" kvs = Some (PDict vkvs) ->
     lookup "meters_float" vkvs = Some (PInt z) ->
     z <> 0 -> Z.abs z < 2 ^ 53 ->
     read_visibility (PDict kvs) = Ok (PFloat (FFin (inject_Z z)))) /\
  (forall ckvs rest z,
     lookup "base_feet_agl" ckvs = Some (PInt z) -> z <> 0 ->
     first_ceiling (PDict ckvs :: rest) = Ok (PInt z)) /\
  (forall ckvs rest q,
     lookup "base_feet_agl" ckvs = Some (PFloat (FFin q)) -> Qnum q <> 0 ->
     first_ceiling (PDict ckvs :: rest) = Ok (PInt (truncate q))) /\
  (forall z, truncate (inject_Z z) = z) /\
  (forall data s vis ceiling,
     str_in "CAVOK" (upper s) = false ->
     read_visibility data = Ok vis -> read_ceiling data = Ok ceiling ->
     extract data (PStr s) = Ok (vis, ceiling)).
Proof.
  repeat split.
  - intros kvs vkvs f Hv Hm Ht. unfold read_visibility. simpl.
    rewrite Hv. simpl. rewrite Hm, Ht. reflexivity.
  - intros kvs vkvs z Hv Hm Hz Hb. unfold read_visibility. simpl.
    rewrite Hv. simpl. rewrite Hm. simpl.
    apply Z.eqb_neq in Hz. rewrite Hz. simpl.
    now rewrite (float_of_Z_exact z Hb).
  - intros ckvs rest z Hb Hz. simpl. rewrite Hb. simpl.
    apply Z.eqb_neq in Hz. now rewrite Hz.
  - intros ckvs rest q Hb Hq. simpl. rewrite Hb. simpl.
    apply Z.eqb_neq in Hq. now rewrite Hq.
  - apply truncate_integer.
  - intros data s vis ceiling Hs Hv Hc. unfold extract, cavok_override.
    rewrite Hv, Hc. simpl. now rewrite Hs.
Qed.

Lemma C7_pass_through_witness :
  extract (py := no_numeric_strings)
    (PDict [("visibility", PDict [("meters_float", PFloat (FFin 4500))]);
            ("clouds", PList [PDict [("base_feet_agl", PInt 1200)]])])
    (PStr "EGLL 031150Z 24010KT 4500 BR BKN012 09/08 Q1018")
  = Ok (PFloat (FFin 4500), PInt 1200).
Proof.
  exact (proj2 (proj2 (proj2 (proj2 (proj2 (C7_pass_through (py := no_numeric_strings))))))
           (PDict [("visibility", PDict [("meters_float", PFloat (FFin 4500))]);
                   ("clouds", PList [PDict [("base_feet_agl", PInt 1200)]])])
           "EGLL 031150Z 24010KT 4500 BR BKN012 09/08 Q1018"
           (PFloat (FFin 4500)) (PInt 1200) eq_refl eq_refl eq_refl).
Defined.

(** ** The page *)

Section PageFacts.
Context {py : PyStr} {sl : Streamlit}.

(** With no raw text the analysis raises before it renders anything. *)
Lemma analysis_absent (request : res response) (page : list ui) :
  exists e, analysis PNone request page = (Raise e, page).
Proof.
  unfold analysis, bind_script, eval.
  destruct request as [r | e]; [ | eauto].
  destruct (json r) as [data | e]; [ | eauto].
  unfold extract.
  destruct (read_visibility data) as [vis | e]; simpl; [ | eauto].
  destruct (read_ceiling data) as [ceiling | e]; simpl; eauto.
Qed.

Lemma metar_block_absent (metar_text : pyval) (request : res response) :
  metar_block PNone metar_text request [] =
    (Ok tt, [Info "Unable to analyze VFR/IFR conditions.";
             Warning "METAR data unavailable."]).
Proof.
  unfold metar_block, bind_script, try_except.
  destruct (analysis_absent request []) as [e ->]. reflexivity.
Qed.

(** The two expander bodies never raise. *)
Lemma metar_block_returns (metar_raw metar_text : pyval) (request : res response) :
  metar_block metar_raw metar_text request [] =
    (Ok tt, rendered (metar_block metar_raw metar_text request)).
Proof.
  unfold rendered, metar_block, bind_script, try_except.
  destruct (analysis metar_raw request []) as [[[] | e] inside]; simpl;
    destruct (truthy metar_raw); reflexivity.
Qed.

Lemma taf_block_returns (taf_raw taf_text : pyval) :
  taf_block taf_raw taf_text [] = (Ok tt, rendered (taf_block taf_raw taf_text)).
Proof.
  unfold rendered, taf_block, bind_script.
  destruct (truthy taf_raw); reflexivity.
Qed.

(** The map step either goes through or raises on a truthy pair. *)
Lemma map_step_cases (lat lon : pyval) :
  map_returns lat lon \/
  (truthy lat && truthy lon = true /\ exists e, map_call lat lon = Raise e).
Proof.
  unfold map_returns. destruct (truthy lat && truthy lon); [ | now left; left].
  destruct (map_call lat lon) as [[] | e]; [left; now right | right; eauto].
Qed.

(** When the three fetchers return and the map step goes through, the page
    is the station header, the two expanders, the legend and the divider. *)
Lemma render_sections (w : world) (text : string)
      (metar_raw metar_text taf_raw taf_text name lat lon : pyval) :
  truthy (PStr (upper text)) = true ->
  get_metar (metar_get w) = Ok (metar_raw, metar_text) ->
  get_taf (taf_get w) = Ok (taf_raw, taf_text) ->
  get_station_name (station_get w) = Ok (name, lat, lon) ->
  map_returns lat lon ->
  render w true text =
    (station_header name lat lon (upper text) ++
     [Expander METAR_title (rendered (metar_block metar_raw metar_text (analysis_get w)));
      Expander TAF_title (rendered (taf_block taf_raw taf_text));
      Legend; Divider])%list.
Proof.
  intros Hi Hm Ht Hs Hmap. unfold render, main, station_header.
  rewrite Hi. cbn [andb].
  unfold try_except, bind_script, eval, expander. rewrite Hm, Ht, Hs.
  cbn [st app].
  destruct (truthy lat && truthy lon) eqn:Hc.
  - destruct Hmap as [Hf | Hok]; [congruence | ].
    unfold st_map, bind_script, eval. rewrite Hok.
    unfold st; cbn [app];
      rewrite metar_block_returns, taf_block_returns; reflexivity.
  - unfold st, skip; cbn [app];
      rewrite metar_block_returns, taf_block_returns; reflexivity.
Qed.

(** When the map call raises, the outer handler takes over right after the
    subheader: nothing else of the page is rendered. *)
Lemma render_map_raises (w : world) (text : string)
      (m t : pyval * pyval) (name lat lon : pyval) (e : exn) :
  truthy (PStr (upper text)) = true ->
  get_metar (metar_get w) = Ok m ->
  get_taf (taf_get w) = Ok t ->
  get_station_name (station_get w) = Ok (name, lat, lon) ->
  truthy lat && truthy lon = true -> map_call lat lon = Raise e ->
  render w true text = [Subheader name (upper text); Error e].
Proof.
  intros Hi Hm Ht Hs Hc He. unfold render, main. rewrite Hi. cbn [andb].
  unfold try_except, bind_script, eval. rewrite Hm, Ht, Hs.
  destruct m, t. cbn [st app]. rewrite Hc.
  unfold st_map, bind_script, eval. now rewrite He.
Qed.

(** A fetcher that raises leaves only the error on the page. *)
Lemma render_metar_raises (w : world) (text : string) (e : exn) :
  truthy (PStr (upper text)) = true ->
  get_metar (metar_get w) = Raise e ->
  render w true text = [Error e].
Proof.
  intros Hi Hm. unfold render, main. rewrite Hi. cbn [andb].
  unfold try_except, bind_script, eval. now rewrite Hm.
Qed.

Lemma render_taf_raises (w : world) (text : string) (m : pyval * pyval) (e : exn) :
  truthy (PStr (upper text)) = true ->
  get_metar (metar_get w) = Ok m ->
  get_taf (taf_get w) = Raise e ->
  render w true text = [Error e].
Proof.
  intros Hi Hm Ht. unfold render, main. rewrite Hi. cbn [andb].
  unfold try_except, bind_script, eval. rewrite Hm, Ht. now destruct m.
Qed.

Lemma render_no_code (w : world) (text : string) :
  truthy (PStr (upper text)) = false ->
  render w true text = [Info "🛩️ Enter a valid ICAO code to display weather data."].
Proof. intros Hi. unfold render, main. now rewrite Hi. Qed.

(** The script itself never raises: the outer handler catches everything. *)
Lemma main_returns (w : world) (submit : bool) (text : string) (page : list ui) :
  fst (main w submit text page) = Ok tt.
Proof.
  unfold main. destruct (submit && truthy (PStr (upper text))); [ | reflexivity].
  unfold try_except.
  match goal with |- context [match ?b page with _ => _ end] =>
    destruct (b page) as [[[] | e] page'] end; reflexivity.
Qed.

Lemma sections_found (name lat lon : pyval) (icao : string) (metar taf : list ui) :
  let page := (station_header name lat lon icao ++
               [Expander METAR_title metar; Expander TAF_title taf; Legend; Divider])%list in
  shown_station page = Some name /\
  expander_body METAR_title page = Some metar /\
  expander_body TAF_title page = Some taf.
Proof.
  unfold station_header. destruct (truthy lat && truthy lon); repeat split.
Qed.

Lemma render_station_raises (w : world) (text : string)
      (m t : pyval * pyval) (e : exn) :
  truthy (PStr (upper text)) = true ->
  get_metar (metar_get w) = Ok m ->
  get_taf (taf_get w) = Ok t ->
  get_station_name (station_get w) = Raise e ->
  render w true text = [Error e].
Proof.
  intros Hi Hm Ht Hs. unfold render, main. rewrite Hi. cbn [andb].
  unfold try_except, bind_script, eval. rewrite Hm, Ht, Hs.
  now destruct m, t.
Qed.

(** The four shapes of a page. *)
Lemma render_cases (w : world) (submit : bool) (text : string) :
  (submit && truthy (PStr (upper text)) = false /\
   render w submit text =
     [Info "🛩️ Enter a valid ICAO code to display weather data."]) \/
  (submit && truthy (PStr (upper text)) = true /\
   exists e, first_failure w = Some e /\ render w submit text = [Error e]) \/
  (submit && truthy (PStr (upper text)) = true /\ first_failure w = None /\
   exists metar_raw metar_text taf_raw taf_text name lat lon,
     get_metar (metar_get w) = Ok (metar_raw, metar_text) /\
     get_taf (taf_get w) = Ok (taf_raw, taf_text) /\
     get_station_name (station_get w) = Ok (name, lat, lon) /\
     ((map_returns lat lon /\
       render w submit text =
         (station_header name lat lon (upper text) ++
          [Expander METAR_title (rendered (metar_block metar_raw metar_text (analysis_get w)));
           Expander TAF_title (rendered (taf_block taf_raw taf_text));
           Legend; Divider])%list) \/
      (truthy lat && truthy lon = true /\
       exists e, map_call lat lon = Raise e /\
                 render w submit text = [Subheader name (upper text); Error e]))).
Proof.
  destruct submit.
  2: { left. split; reflexivity. }
  destruct (truthy (PStr (upper text))) eqn:Hi.
  2: { left. split; [reflexivity | now apply render_no_code]. }
  right. unfold first_failure.
  destruct (get_metar (metar_get w)) as [[mr mt] | e] eqn:Hm.
  2: { left. split; [reflexivity | ]. exists e. split; [reflexivity | ].
       now apply render_metar_raises. }
  destruct (get_taf (taf_get w)) as [[tr tt] | e] eqn:Ht.
  2: { left. split; [reflexivity | ]. exists e. split; [reflexivity | ].
       now apply render_taf_raises with (mr, mt). }
  destruct (get_station_name (station_get w)) as [[[n lat] lon] | e] eqn:Hs.
  2: { left. split; [reflexivity | ]. exists e. split; [reflexivity | ].
       now apply render_station_raises with (mr, mt) (tr, tt). }
  right. split; [reflexivity | ]. split; [reflexivity | ].
  exists mr, mt, tr, tt, n, lat, lon. repeat split.
  destruct (map_step_cases lat lon) as [Hmap | [Hc [e He]]].
  - left. split; [exact Hmap | now apply render_sections].
  - right. split; [exact Hc | ]. exists e. split; [exact He | ].
    now apply render_map_raises with (mr, mt) (tr, tt) lat lon.
Qed.

(** With the METAR unavailable no page shows readings or a category. *)
Lemma absent_metar_page (w : world) (submit : bool) (text : string) :
  get_metar (metar_get w) = Ok (PNone, PNone) ->
  category_of (render w submit text) = None /\
  readings_of (render w submit text) = None.
Proof.
  intros Hm.
  destruct (render_cases w submit text)
    as [[_ ->] | [(_ & e & _ & ->)
        | (_ & _ & mr & mt & tr & tt & n & lat & lon & Hm' & _ & _
           & [[_ ->] | (_ & e & _ & ->)])]];
    try (split; reflexivity).
  rewrite Hm in Hm'. inversion Hm'; subst mr mt.
  unfold category_of, readings_of.
  destruct (sections_found n lat lon (upper text)
              (rendered (metar_block PNone PNone (analysis_get w)))
              (rendered (taf_block tr tt))) as (_ & -> & _).
  unfold rendered. rewrite metar_block_absent. split; reflexivity.
Qed.

End PageFacts.

(** C4, the claim as worded, fails: when the METAR fetch answers 404 the
    analysis is still started, raises at [metar_raw.upper()] and ends in the
    catch-all handler, so the page carries no category at all rather than
    the classifier's INSUFFICIENT_DATA. *)
Lemma C4_no_category_counterexample :
  let missing := Ok {| status_code := 404; json := Ok (PDict [("error", PStr "not found")]) |} in
  let station := Ok {| status_code := 200; json := Ok (PDict [("name", PStr "Paris-Charles de Gaulle")]) |} in
  let w := {| metar_get := missing; taf_get := missing;
              station_get := station; analysis_get := missing |} in
  get_metar missing = Ok (PNone, PNone) /\
  (forall (py : PyStr) (sl : Streamlit),
     category_of (render w true "lfpg") = None /\
     expander_body METAR_title (render w true "lfpg") =
       Some [Info "Unable to analyze VFR/IFR conditions.";
             Warning "METAR data unavailable."]) /\
  Some (label INSUFFICIENT_DATA) <> None.
Proof.
  repeat split. discriminate.
Qed.

Section Aggregate.
Context {py : PyStr} {sl : Streamlit}.

(** C4, amended: when the METAR fetch returns the absence signal, the
    classifier is never reached and no page shows a visibility, a ceiling or
    a category: whatever the analysis request returns, the METAR expander
    holds the catch-all message and the unavailable warning; when the other
    two fetchers return and the map step goes through, that expander is on
    the page; the exception raised inside the analysis does not leave the
    block, and the script as a whole never raises. *)
Theorem C4_metar_unavailable (w : world) (text : string) (r : response) :
  metar_get w = Ok r -> status_code r <> 200 ->
  get_metar (metar_get w) = Ok (PNone, PNone) /\
  (forall request,
     metar_block PNone PNone request [] =
       (Ok tt, [Info "Unable to analyze VFR/IFR conditions.";
                Warning "METAR data unavailable."])) /\
  (forall taf name lat lon,
     truthy (PStr (upper text)) = true ->
     get_taf (taf_get w) = Ok taf ->
     get_station_name (station_get w) = Ok (name, lat, lon) ->
     map_returns lat lon ->
     expander_body METAR_title (render w true text) =
       Some [Info "Unable to analyze VFR/IFR conditions.";
             Warning "METAR data unavailable."]) /\
  (forall submit text',
     category_of (render w submit text') = None /\
     readings_of (render w submit text') = None) /\
  fst (main w true text []) = Ok tt.
Proof.
  intros Hw Hr.
  assert (Hm : get_metar (metar_get w) = Ok (PNone, PNone)).
  { rewrite Hw. unfold get_metar. simpl.
    apply Z.eqb_neq in Hr. now rewrite Hr. }
  split; [exact Hm | ].
  split; [intros request; apply metar_block_absent | ].
  split; [ | split; [ | apply main_returns] ].
  - intros [taf_raw taf_text] name lat lon Hi Ht Hs Hmap.
    rewrite (render_sections w text _ _ _ _ _ _ _ Hi Hm Ht Hs Hmap).
    unfold rendered. rewrite metar_block_absent.
    apply sections_found.
  - intros submit text'. now apply absent_metar_page.
Qed.

End Aggregate.

Lemma C4_metar_unavailable_witness :
  let missing := {| status_code := 404; json := Raise JSONDecodeError |} in
  let station := {| status_code := 200;
                    json := Ok (PDict [("name", PStr "Paris-Charles de Gaulle")]) |} in
  let w := {| metar_get := Ok missing; taf_get := Ok missing;
              station_get := Ok station; analysis_get := Raise RequestException |} in
  expander_body METAR_title
    (render (py := no_numeric_strings) (sl := map_always_renders) w true "lfpg") =
    Some [Info "Unable to analyze VFR/IFR conditions.";
          Warning "METAR data unavailable."].
Proof.
  intros missing station w.
  refine (proj1 (proj2 (proj2
            (C4_metar_unavailable (py := no_numeric_strings) (sl := map_always_renders)
               w "lfpg" missing eq_refl _)))
            (PNone, PNone) (PStr "Paris-Charles de Gaulle") PNone PNone
            eq_refl eq_refl eq_refl _).
  - simpl. lia.
  - left. reflexivity.
Defined.


(** C10, the claim as worded, fails: a successful response without a name
    gives the name "Unknown name" together with the reported coordinates,
    and one without a latitude keeps the reported name and longitude. *)
Lemma C10_missing_field_counterexample :
  let nameless :=
    {| status_code := 200;
       json := Ok (PDict [("latitude", PFloat (FFin 49.0097));
                          ("longitude", PFloat (FFin 2.5479))]) |} in
  let no_latitude :=
    {| status_code := 200;
       json := Ok (PDict [("name", PStr "Paris-Charles de Gaulle");
                          ("longitude", PFloat (FFin 2.5479))]) |} in
  get_station_name (Ok nameless) =
    Ok (PStr "Unknown name", PFloat (FFin 49.0097), PFloat (FFin 2.5479)) /\
  get_station_name (Ok no_latitude) =
    Ok (PStr "Paris-Charles de Gaulle", PNone, PFloat (FFin 2.5479)) /\
  PFloat (FFin 49.0097) <> PNone /\
  PStr "Paris-Charles de Gaulle" <> PStr "Unknown name".
Proof. repeat split; discriminate. Qed.

Section Independence.
Context {py : PyStr}.

Lemma first_ceiling_shape (clouds : list pyval) (c : pyval) :
  first_ceiling clouds = Ok c -> is_None c || is_number c = true.
Proof.
  induction clouds as [ | cloud rest IH]; simpl.
  - now inversion 1.
  - destruct (py_get cloud "base_feet_agl" PNone) as [base | e]; simpl; [ | discriminate].
    destruct (truthy base); [ | exact IH].
    destruct (py_getitem cloud "base_feet_agl") as [b | e]; simpl; [ | discriminate].
    destruct (py_int b) as [z | e]; simpl; [ | discriminate].
    now inversion 1.
Qed.

Lemma read_visibility_shape (data v : pyval) :
  read_visibility data = Ok v -> is_None v || is_number v = true.
Proof.
  unfold read_visibility.
  destruct (py_get data "visibility" (PDict [])) as [visibility | e]; simpl; [ | discriminate].
  destruct (py_get visibility "meters_float" PNone) as [vis_raw | e]; simpl; [ | discriminate].
  destruct (truthy vis_raw); [ | now inversion 1].
  destruct (py_float vis_raw) as [f | e]; simpl; [ | discriminate].
  now inversion 1.
Qed.

(** What the extractor hands to the classifier is absent or a number. *)
Lemma extract_shape (data metar_raw vis ceiling : pyval) :
  extract data metar_raw = Ok (vis, ceiling) ->
  is_None vis || is_number vis = true /\ is_None ceiling || is_number ceiling = true.
Proof.
  unfold extract, read_ceiling, cavok_override.
  destruct (read_visibility data) as [v | e] eqn:Ev; simpl; [ | discriminate].
  destruct (py_get data "clouds" (PList [])) as [clouds | e]; simpl; [ | discriminate].
  destruct (py_iter clouds) as [layers | e]; simpl; [ | discriminate].
  destruct (first_ceiling layers) as [c | e] eqn:Ec; simpl; [ | discriminate].
  destruct (py_upper metar_raw) as [up | e]; simpl; [ | discriminate].
  destruct (str_in "CAVOK" up); inversion 1; subst.
  - split; reflexivity.
  - split; [now apply read_visibility_shape with data | now apply first_ceiling_shape with layers].
Qed.

(** On such arguments the classifier returns one of its five strings. *)
Lemma get_flight_rules_total (v c : pyval) :
  is_None v || is_number v = true -> is_None c || is_number c = true ->
  exists cat, get_flight_rules v c = Ok (label cat).
Proof.
  intros Hv Hc.
  destruct (is_None v) eqn:Nv.
  { exists INSUFFICIENT_DATA. unfold get_flight_rules. now rewrite Nv. }
  destruct (is_None c) eqn:Nc.
  { exists INSUFFICIENT_DATA. unfold get_flight_rules. now rewrite Nc, orb_true_r. }
  simpl in Hv, Hc.
  destruct (numbers_classified v c Hv Hc) as (cat & _ & H). eauto.
Qed.

(** A completed analysis renders the readings and then the banner. *)
Lemma analysis_completes (metar_raw : pyval) (r : response) (data vis ceiling : pyval)
      (rules : string) :
  json r = Ok data ->
  extract data metar_raw = Ok (vis, ceiling) ->
  get_flight_rules vis ceiling = Ok rules ->
  analysis metar_raw (Ok r) [] =
    (Ok tt, [Readings vis ceiling; FlightConditions rules (banner_color rules)]).
Proof.
  intros Hj He Hr. unfold analysis, bind_script, eval.
  rewrite Hj, He. unfold st. cbn [app]. now rewrite Hr.
Qed.

End Independence.

Section Sources.
Context {py : PyStr} {sl : Streamlit}.

(** Replacing the station request by another that its fetcher also survives
    leaves the sections of the other sources as they were, as long as the
    map step goes through on both results. *)
Lemma station_frame (w : world) (text : string) (request : res response)
      (n lat lon n' lat' lon' : pyval) :
  get_station_name (station_get w) = Ok (n, lat, lon) ->
  get_station_name request = Ok (n', lat', lon') ->
  map_returns lat lon -> map_returns lat' lon' ->
  expander_body METAR_title (render (with_station w request) true text) =
    expander_body METAR_title (render w true text) /\
  expander_body TAF_title (render (with_station w request) true text) =
    expander_body TAF_title (render w true text).
Proof.
  intros Ha Hb Ma Mb.
  destruct (truthy (PStr (upper text))) eqn:Hi.
  2: { now rewrite !render_no_code. }
  destruct (get_metar (metar_get w)) as [[mr mt] | e] eqn:Hm.
  2: { rewrite (render_metar_raises w text e Hi Hm).
       now rewrite (render_metar_raises (with_station w request) text e Hi Hm). }
  destruct (get_taf (taf_get w)) as [[tr tt] | e] eqn:Ht.
  2: { rewrite (render_taf_raises w text _ e Hi Hm Ht).
       now rewrite (render_taf_raises (with_station w request) text _ e Hi Hm Ht). }
  rewrite (render_sections w text _ _ _ _ _ _ _ Hi Hm Ht Ha Ma).
  rewrite (render_sections (with_station w request) text _ _ _ _ _ _ _ Hi Hm Ht Hb Mb).
  cbn [analysis_get with_station].
  destruct (sections_found n lat lon (upper text)
              (rendered (metar_block mr mt (analysis_get w)))
              (rendered (taf_block tr tt))) as (_ & -> & ->).
  destruct (sections_found n' lat' lon' (upper text)
              (rendered (metar_block mr mt (analysis_get w)))
              (rendered (taf_block tr tt))) as (_ & -> & ->).
  split; reflexivity.
Qed.



(** C10, amended: on an unsuccessful response the station fetch returns
    "Unknown name" with absent latitude and longitude; on a successful
    response each field falls back on its own: a missing name becomes
    "Unknown name", a missing latitude or longitude is absent, and the
    fields that are present are returned as reported.  An unsuccessful
    response asks for no map, and it leaves the METAR section (with the
    derived category) and the TAF section of the page as any other station
    result does on which the map step goes through. *)
Theorem C10_station_defaults :
  (forall r, status_code r <> 200 ->
             get_station_name (Ok r) = Ok (PStr "Unknown name", PNone, PNone)) /\
  (forall r kvs,
     status_code r = 200 -> json r = Ok (PDict kvs) ->
     get_station_name (Ok r) =
       Ok (or_default (lookup "name" kvs) (PStr "Unknown name"),
           or_default (lookup "latitude" kvs) PNone,
           or_default (lookup "longitude" kvs) PNone)) /\
  (forall w text request n lat lon n' lat' lon',
     get_station_name (station_get w) = Ok (n, lat, lon) ->
     get_station_name request = Ok (n', lat', lon') ->
     map_returns lat lon -> map_returns lat' lon' ->
     let page := render w true text in
     let page' := render (with_station w request) true text in
     expander_body METAR_title page' = expander_body METAR_title page /\
     expander_body TAF_title page' = expander_body TAF_title page /\
     category_of page' = category_of page /\
     forecast_of page' = forecast_of page) /\
  (forall w text r n lat lon,
     status_code r <> 200 ->
     get_station_name (station_get w) = Ok (n, lat, lon) ->
     map_returns lat lon ->
     let page := render w true text in
     let page' := render (with_station w (Ok r)) true text in
     expander_body METAR_title page' = expander_body METAR_title page /\
     expander_body TAF_title page' = expander_body TAF_title page /\
     category_of page' = category_of page /\
     forecast_of page' = forecast_of page).
Proof.
  assert (F : forall r, status_code r <> 200 ->
                        get_station_name (Ok r) = Ok (PStr "Unknown name", PNone, PNone)).
  { intros r Hr. unfold get_station_name. simpl.
    apply Z.eqb_neq in Hr. now rewrite Hr. }
  assert (G : forall w text request n lat lon n' lat' lon',
             get_station_name (station_get w) = Ok (n, lat, lon) ->
             get_station_name request = Ok (n', lat', lon') ->
             map_returns lat lon -> map_returns lat' lon' ->
             let page := render w true text in
             let page' := render (with_station w request) true text in
             expander_body METAR_title page' = expander_body METAR_title page /\
             expander_body TAF_title page' = expander_body TAF_title page /\
             category_of page' = category_of page /\
             forecast_of page' = forecast_of page).
  { intros w text request n lat lon n' lat' lon' Ha Hb Ma Mb page page'.
    destruct (station_frame w text request _ _ _ _ _ _ Ha Hb Ma Mb) as [Hm Ht].
    fold page page' in Hm, Ht.
    unfold category_of, forecast_of. rewrite Hm, Ht. repeat split. }
  split; [exact F | split; [ | split; [exact G | ] ] ].
  - intros r kvs Hr Hj. unfold get_station_name. simpl.
    now rewrite Hr, Hj.
  - intros w text r n lat lon Hr Ha Ma.
    apply (G w text (Ok r) n lat lon _ _ _ Ha (F r Hr) Ma).
    left. reflexivity.
Qed.

End Sources.


Lemma C10_station_defaults_witness :
  get_station_name (Ok {| status_code := 404; json := Raise JSONDecodeError |})
  = Ok (PStr "Unknown name", PNone, PNone).
Proof.
  refine (proj1 (C10_station_defaults (py := no_numeric_strings) (sl := map_always_renders))
            {| status_code := 404; json := Raise JSONDecodeError |} _).
  simpl. lia.
Defined.

(** * Further properties *)

(** ** The classifier beyond the rule table *)

Lemma grade_number (x : pyval) (vfr mvfr ifr : Z) :
  is_number x = true -> exists g, grade x vfr mvfr ifr = Ok g /\ g <> INSUFFICIENT_DATA.
Proof.
  intros Hx. unfold grade.
  destruct (py_ge_decides x vfr Hx) as [[-> _] | [-> _]];
    destruct (py_ge_decides x mvfr Hx) as [[-> _] | [-> _]];
    destruct (py_ge_decides x ifr Hx) as [[-> _] | [-> _]];
    simpl; eexists; (split; [reflexivity | discriminate]).
Qed.

(** On two numbers the category is the worse of the two grades. *)
Lemma classified_by_grades (v c : pyval) :
  is_number v = true -> is_number c = true ->
  exists gv gc,
    visibility_grade v = Ok gv /\ ceiling_grade c = Ok gc /\
    get_flight_rules v c = Ok (label (worse gv gc)).
Proof.
  intros Hv Hc.
  pose proof (reaches_mono v 5000 3000 ltac:(lia)).
  pose proof (reaches_mono v 3000 1600 ltac:(lia)).
  pose proof (reaches_mono c 1500 1000 ltac:(lia)).
  pose proof (reaches_mono c 1000 500 ltac:(lia)).
  unfold visibility_grade, ceiling_grade, grade.
  decide_guards v c Hv Hc;
    first [ solve [eexists; eexists; split; [reflexivity | split; reflexivity]]
          | exfalso; tauto ].
Qed.

Lemma rank_worse (a b : FlightCategory) : rank (worse a b) = Z.min (rank a) (rank b).
Proof. destruct a, b; reflexivity. Qed.

(** X1: on two numbers the classifier grades each reading on its own
    thresholds (5000/3000/1600 m and 1500/1000/500 ft) and returns the more
    restrictive of the two grades. *)
Theorem X1_worse_of_two_grades (v c : pyval) :
  is_number v = true -> is_number c = true ->
  exists gv gc,
    visibility_grade v = Ok gv /\ ceiling_grade c = Ok gc /\
    gv <> INSUFFICIENT_DATA /\ gc <> INSUFFICIENT_DATA /\
    get_flight_rules v c = Ok (label (worse gv gc)) /\
    rank (worse gv gc) = Z.min (rank gv) (rank gc).
Proof.
  intros Hv Hc.
  destruct (classified_by_grades v c Hv Hc) as (gv & gc & Gv & Gc & H).
  destruct (grade_number v 5000 3000 1600 Hv) as (gv' & Gv' & Nv).
  destruct (grade_number c 1500 1000 500 Hc) as (gc' & Gc' & Nc).
  unfold visibility_grade in Gv. unfold ceiling_grade in Gc.
  assert (gv' = gv) by congruence. assert (gc' = gc) by congruence. subst gv' gc'.
  exists gv, gc. repeat split; try assumption. apply rank_worse.
Qed.

Lemma X1_worse_of_two_grades_witness :
  exists gv gc,
    visibility_grade (PFloat (FFin 9000)) = Ok gv /\ ceiling_grade (PInt 700) = Ok gc /\
    gv <> INSUFFICIENT_DATA /\ gc <> INSUFFICIENT_DATA /\
    get_flight_rules (PFloat (FFin 9000)) (PInt 700) = Ok (label (worse gv gc)) /\
    rank (worse gv gc) = Z.min (rank gv) (rank gc).
Proof. exact (X1_worse_of_two_grades (PFloat (FFin 9000)) (PInt 700) eq_refl eq_refl). Defined.

Lemma grade_monotone (x x' : pyval) (vfr mvfr ifr : Z) (g g' : FlightCategory) :
  is_number x = true -> is_number x' = true -> no_worse x x' ->
  mvfr <= vfr -> ifr <= mvfr ->
  grade x vfr mvfr ifr = Ok g -> grade x' vfr mvfr ifr = Ok g' ->
  rank g <= rank g'.
Proof.
  intros Hx Hx' Hle H1 H2. unfold grade.
  pose proof (Hle vfr). pose proof (Hle mvfr). pose proof (Hle ifr).
  pose proof (reaches_mono x' vfr mvfr H1). pose proof (reaches_mono x' mvfr ifr H2).
  destruct (py_ge_decides x vfr Hx) as [[-> ?] | [-> ?]];
    destruct (py_ge_decides x mvfr Hx) as [[-> ?] | [-> ?]];
    destruct (py_ge_decides x ifr Hx) as [[-> ?] | [-> ?]];
    destruct (py_ge_decides x' vfr Hx') as [[-> ?] | [-> ?]];
    destruct (py_ge_decides x' mvfr Hx') as [[-> ?] | [-> ?]];
    destruct (py_ge_decides x' ifr Hx') as [[-> ?] | [-> ?]];
    simpl; intros E E'; inversion E; inversion E'; subst; simpl;
    first [lia | exfalso; tauto].
Qed.

Lemma no_worse_int (z z' : Z) : z <= z' -> no_worse (PInt z) (PInt z').
Proof. intros H k. simpl. lia. Qed.

(** X2: the classifier is monotone: when neither reading gets smaller, the
    category does not get more restrictive. *)
Theorem X2_monotone (v c v' c' : pyval) :
  is_number v = true -> is_number c = true ->
  is_number v' = true -> is_number c' = true ->
  no_worse v v' -> no_worse c c' ->
  exists cat cat',
    get_flight_rules v c = Ok (label cat) /\
    get_flight_rules v' c' = Ok (label cat') /\
    rank cat <= rank cat'.
Proof.
  intros Hv Hc Hv' Hc' Lv Lc.
  destruct (classified_by_grades v c Hv Hc) as (gv & gc & Gv & Gc & ->).
  destruct (classified_by_grades v' c' Hv' Hc') as (gv' & gc' & Gv' & Gc' & ->).
  exists (worse gv gc), (worse gv' gc'). repeat split.
  rewrite !rank_worse.
  pose proof (grade_monotone v v' 5000 3000 1600 gv gv' Hv Hv' Lv
                ltac:(lia) ltac:(lia) Gv Gv').
  pose proof (grade_monotone c c' 1500 1000 500 gc gc' Hc Hc' Lc
                ltac:(lia) ltac:(lia) Gc Gc').
  lia.
Qed.

Lemma X2_monotone_witness :
  exists cat cat',
    get_flight_rules (PInt 2000) (PInt 600) = Ok (label cat) /\
    get_flight_rules (PInt 4000) (PInt 1200) = Ok (label cat') /\
    rank cat <= rank cat'.
Proof.
  exact (X2_monotone (PInt 2000) (PInt 600) (PInt 4000) (PInt 1200)
           eq_refl eq_refl eq_refl eq_refl
           (no_worse_int 2000 4000 ltac:(lia)) (no_worse_int 600 1200 ltac:(lia))).
Defined.

Lemma py_ge_other (x : pyval) (k : Z) :
  is_number x = false -> py_ge x k = Raise TypeError.
Proof. destruct x; simpl; congruence. Qed.

(** X3: what the classifier does with a present value that is not a number.
    A non-numeric visibility raises TypeError whenever the ceiling is
    present.  A non-numeric ceiling raises TypeError only when a numeric
    visibility reaches 1600: below 1600 every first comparison fails, the
    ceiling is never compared and the answer is LIFR. *)
Theorem X3_not_a_number :
  (forall v c,
     is_None v = false -> is_number v = false -> is_None c = false ->
     get_flight_rules v c = Raise TypeError) /\
  (forall v c,
     is_number v = true -> is_None c = false -> is_number c = false ->
     (reaches v 1600 -> get_flight_rules v c = Raise TypeError) /\
     (~ reaches v 1600 -> get_flight_rules v c = Ok (label LIFR))).
Proof.
  split.
  - intros v c Nv Hv Nc. unfold get_flight_rules.
    rewrite Nv, Nc. simpl. unfold py_and. now rewrite (py_ge_other v 5000 Hv).
  - intros v c Hv Nc Hc.
    pose proof (reaches_mono v 5000 3000 ltac:(lia)).
    pose proof (reaches_mono v 3000 1600 ltac:(lia)).
    unfold get_flight_rules.
    rewrite (number_not_None v Hv), Nc. simpl. unfold py_and.
    rewrite !(py_ge_other c _ Hc).
    destruct (py_ge_decides v 5000 Hv) as [[-> ?] | [-> ?]];
      destruct (py_ge_decides v 3000 Hv) as [[-> ?] | [-> ?]];
      destruct (py_ge_decides v 1600 Hv) as [[-> ?] | [-> ?]];
      simpl; split; intros; first [reflexivity | exfalso; tauto].
Qed.

Lemma X3_not_a_number_witness :
  get_flight_rules (PInt 800) (PStr "OVC002") = Ok (label LIFR).
Proof.
  refine (proj2 (proj2 X3_not_a_number (PInt 800) (PStr "OVC002") eq_refl eq_refl eq_refl) _).
  simpl. lia.
Defined.

(** Whatever its arguments, the classifier returns one of its five strings
    when it returns. *)
Lemma get_flight_rules_labels (v c : pyval) (rules : string) :
  get_flight_rules v c = Ok rules -> exists cat, rules = label cat.
Proof.
  unfold get_flight_rules, py_and, bind_res.
  destruct (is_None v || is_None c).
  { inversion 1. now exists INSUFFICIENT_DATA. }
  destruct (py_ge v 5000) as [[ | ] | ]; destruct (py_ge c 1500) as [[ | ] | ];
    try discriminate;
    try (inversion 1; now exists VFR);
    destruct (py_ge v 3000) as [[ | ] | ]; destruct (py_ge c 1000) as [[ | ] | ];
    try discriminate;
    try (inversion 1; now exists MVFR);
    destruct (py_ge v 1600) as [[ | ] | ]; destruct (py_ge c 500) as [[ | ] | ];
    try discriminate;
    try (inversion 1; now exists IFR);
    try (inversion 1; now exists LIFR).
Qed.

(** X4: the banner colour of every result the classifier can return: green
    for VFR and also for MVFR (its label contains VFR), red for IFR and also
    for LIFR (its label contains IFR), dark red only for Insufficient data;
    orange is never used. *)
Theorem X4_banner_colors (v c : pyval) (rules : string) :
  get_flight_rules v c = Ok rules ->
  (exists cat, rules = label cat /\ banner_color rules = shown_color cat) /\
  banner_color rules <> "orange".
Proof.
  intros H. destruct (get_flight_rules_labels v c rules H) as [cat ->].
  split.
  - exists cat. split; [reflexivity | now destruct cat].
  - destruct cat; discriminate.
Qed.

Lemma X4_banner_colors_witness :
  banner_color (label MVFR) <> "orange".
Proof.
  exact (proj2 (X4_banner_colors (PInt 3500) (PInt 1000) (label MVFR) eq_refl)).
Defined.

(** ** The extractor beyond the override *)

Lemma prefix_split (n h : string) :
  String.prefix n h = true -> exists post, h = n ++ post.
Proof.
  revert h. induction n as [ | a n IH]; intros h H.
  - now exists h.
  - destruct h as [ | b h]; simpl in H; [discriminate | ].
    destruct (ascii_dec a b) as [-> | ]; [ | discriminate].
    destruct (IH h H) as [post ->]. now exists post.
Qed.

Lemma str_in_occurs (n h : string) :
  str_in n h = true -> exists pre post, h = pre ++ n ++ post.
Proof.
  induction h as [ | c h IH]; cbn [str_in].
  - destruct (String.prefix n "") eqn:E; [ | discriminate].
    intros _. destruct (prefix_split n "" E) as [post Hp].
    exists "", post. exact Hp.
  - destruct (String.prefix n (String c h)) eqn:E.
    + intros _. destruct (prefix_split n _ E) as [post Hp].
      exists "", post. exact Hp.
    + intros H. destruct (IH H) as (pre & post & ->).
      now exists (String c pre), post.
Qed.

Lemma upper_split (s a b : string) :
  upper s = a ++ b -> exists a' b', s = a' ++ b' /\ upper a' = a /\ upper b' = b.
Proof.
  revert s. induction a as [ | c a IH]; intros s H.
  - now exists "", s.
  - destruct s as [ | c' s]; simpl in H; [discriminate | ].
    inversion H as [[Hc Hs]].
    destruct (IH s Hs) as (a' & b' & -> & Ha & Hb).
    exists (String c' a'), b'. simpl. now rewrite Ha, Hb.
Qed.

Lemma found_mentions_cavok (s : string) :
  str_in "CAVOK" (upper s) = true -> mentions_cavok s.
Proof.
  intros H. destruct (str_in_occurs _ _ H) as (pre & post & E).
  destruct (upper_split s pre ("CAVOK" ++ post) E) as (pre' & rest & -> & _ & Hr).
  destruct (upper_split rest "CAVOK" post Hr) as (w & post' & -> & Hw & _).
  now exists pre', w, post'.
Qed.

(** X10: the override fires exactly when the raw text contains CAVOK in
    some letter case, anywhere in the text; otherwise the pair that was read
    is handed on unchanged. *)
Theorem X10_override_exactly_on_cavok (s : string) (vc : pyval * pyval) :
  (str_in "CAVOK" (upper s) = true <-> mentions_cavok s) /\
  (mentions_cavok s -> cavok_override (PStr s) vc = Ok (PInt 10000, PInt 5000)) /\
  (~ mentions_cavok s -> cavok_override (PStr s) vc = Ok vc).
Proof.
  assert (E : str_in "CAVOK" (upper s) = true <-> mentions_cavok s)
    by (split; [apply found_mentions_cavok | apply mentions_cavok_found]).
  split; [exact E | ]. unfold cavok_override. simpl.
  split; intros H.
  - apply E in H. now rewrite H.
  - destruct (str_in "CAVOK" (upper s)); [ | reflexivity].
    exfalso. apply H, E. reflexivity.
Qed.

Lemma X10_override_exactly_on_cavok_witness :
  cavok_override (PStr "lfpg 031200z 24008kt cavok 18/09 q1021") (PNone, PNone)
  = Ok (PInt 10000, PInt 5000).
Proof.
  refine (proj1 (proj2 (X10_override_exactly_on_cavok
                          "lfpg 031200z 24008kt cavok 18/09 q1021" (PNone, PNone))) _).
  exists "lfpg 031200z 24008kt ", "cavok", " 18/09 q1021". split; reflexivity.
Defined.

Section ExtractorEdges.
Context {py : PyStr}.

(** X5: what the extractor returns can always be classified: whenever the
    extraction completes, the classifier returns one of its five results and
    raises nothing. *)
Theorem X5_extracted_pair_classified (data metar_raw vis ceiling : pyval) :
  extract data metar_raw = Ok (vis, ceiling) ->
  exists cat, get_flight_rules vis ceiling = Ok (label cat).
Proof.
  intros H. destruct (extract_shape _ _ _ _ H) as [Hv Hc].
  now apply get_flight_rules_total.
Qed.

Lemma first_ceiling_steps (pre rest : list pyval) :
  forallb stepped_over pre = true ->
  first_ceiling (pre ++ rest)%list = first_ceiling rest.
Proof.
  induction pre as [ | cloud pre IH]; [reflexivity | ].
  simpl forallb. intros H. apply andb_true_iff in H as [Hc Hp].
  destruct cloud as [ | | | | | | kvs]; try discriminate Hc.
  cbn [app first_ceiling]. simpl in Hc |- *. unfold or_default in Hc.
  destruct (lookup "base_feet_agl" kvs) as [b | ]; simpl in *.
  - apply negb_true_iff in Hc. rewrite Hc. now apply IH.
  - now apply IH.
Qed.

(** X9: the ceiling loop stops at the first layer with a truthy base.  After
    layers that are objects without a truthy base, such a layer alone
    decides the result, and what follows it is never read, well-formed or
    not; a layer that is not an object raises AttributeError when the loop
    gets to it. *)
Theorem X9_loop_breaks_at_first_base (pre rest : list pyval) :
  forallb stepped_over pre = true ->
  (forall kvs b,
     lookup "base_feet_agl" kvs = Some b -> truthy b = true ->
     first_ceiling (pre ++ PDict kvs :: rest)%list = (z <- py_int b ;; Ok (PInt z))) /\
  (forall x,
     is_dict x = false ->
     first_ceiling (pre ++ x :: rest)%list = Raise AttributeError) /\
  first_ceiling pre = Ok PNone.
Proof.
  intros Hp. split; [ | split].
  - intros kvs b Hb Ht. rewrite (first_ceiling_steps pre _ Hp).
    simpl. rewrite Hb. simpl. now rewrite Ht.
  - intros x Hx. rewrite (first_ceiling_steps pre _ Hp).
    destruct x; try discriminate Hx; reflexivity.
  - rewrite <- (app_nil_r pre) at 1. now rewrite (first_ceiling_steps pre [] Hp).
Qed.

(** X16: the payloads on which the extraction raises before the override is
    looked at, whatever the raw text says: a payload that is not an object
    or whose visibility entry is not an object raises AttributeError; a
    clouds entry that is null or a number raises TypeError; and when both
    reads succeed, a raw text that is not a string raises AttributeError. *)
Theorem X16_unreadable_payloads (metar_raw : pyval) :
  (forall data, is_dict data = false -> extract data metar_raw = Raise AttributeError) /\
  (forall kvs v,
     lookup "visibility" kvs = Some v -> is_dict v = false ->
     extract (PDict kvs) metar_raw = Raise AttributeError) /\
  (forall kvs vis c,
     read_visibility (PDict kvs) = Ok vis ->
     lookup "clouds" kvs = Some c -> not_iterable c = true ->
     extract (PDict kvs) metar_raw = Raise TypeError) /\
  (forall data vis ceiling,
     read_visibility data = Ok vis -> read_ceiling data = Ok ceiling ->
     (forall s, metar_raw <> PStr s) ->
     extract data metar_raw = Raise AttributeError).
Proof.
  repeat split.
  - intros data Hd. destruct data; try discriminate Hd; reflexivity.
  - intros kvs v Hv Hd. unfold extract, read_visibility. simpl. rewrite Hv.
    destruct v; try discriminate Hd; reflexivity.
  - intros kvs vis c Hr Hc Hn. unfold extract. rewrite Hr. simpl.
    unfold read_ceiling. simpl. rewrite Hc.
    destruct c; try discriminate Hn; reflexivity.
  - intros data vis ceiling Hv Hc Hs. unfold extract. rewrite Hv, Hc. simpl.
    unfold cavok_override.
    destruct metar_raw; try reflexivity. now destruct (Hs s).
Qed.

End ExtractorEdges.

Lemma X5_extracted_pair_classified_witness :
  exists cat, get_flight_rules (PFloat (FFin 4500)) (PInt 1200) = Ok (label cat).
Proof.
  exact (X5_extracted_pair_classified (py := no_numeric_strings)
           (PDict [("visibility", PDict [("meters_float", PFloat (FFin 4500))]);
                   ("clouds", PList [PDict [("base_feet_agl", PInt 1200)]])])
           (PStr "EGLL 031150Z 24010KT 4500 BR BKN012 09/08 Q1018")
           (PFloat (FFin 4500)) (PInt 1200) eq_refl).
Defined.

Lemma X9_loop_breaks_at_first_base_witness :
  first_ceiling (py := no_numeric_strings)
    ([PDict [("repr", PStr "FEW008")]; PDict [("base_feet_agl", PNone)]] ++
     PDict [("base_feet_agl", PInt 1200)] :: [PStr "garbage"; PNone])%list
  = Ok (PInt 1200).
Proof.
  exact (proj1 (X9_loop_breaks_at_first_base (py := no_numeric_strings)
                  [PDict [("repr", PStr "FEW008")]; PDict [("base_feet_agl", PNone)]]
                  [PStr "garbage"; PNone] eq_refl)
           [("base_feet_agl", PInt 1200)] (PInt 1200) eq_refl eq_refl).
Defined.

Lemma X16_unreadable_payloads_witness :
  extract (py := no_numeric_strings) (PList []) (PStr "LFPG 031200Z CAVOK")
  = Raise AttributeError.
Proof.
  exact (proj1 (X16_unreadable_payloads (py := no_numeric_strings)
                  (PStr "LFPG 031200Z CAVOK")) (PList []) eq_refl).
Defined.

(** ** The page as a whole *)

Section PageShape.
Context {py : PyStr} {sl : Streamlit}.

(** The METAR expander holds either the readings and the banner of their
    classification, or the catch-all message; the raw text display follows
    in both cases. *)
Lemma metar_block_shape (metar_raw metar_text : pyval) (request : res response) :
  (exists r data vis ceiling cat,
     request = Ok r /\ json r = Ok data /\
     extract data metar_raw = Ok (vis, ceiling) /\
     get_flight_rules vis ceiling = Ok (label cat) /\
     rendered (metar_block metar_raw metar_text request) =
       Readings vis ceiling
         :: FlightConditions (label cat) (banner_color (label cat))
         :: metar_display metar_raw metar_text) \/
  ((forall r data vc,
      request = Ok r -> json r = Ok data -> extract data metar_raw <> Ok vc) /\
   rendered (metar_block metar_raw metar_text request) =
     Info "Unable to analyze VFR/IFR conditions." :: metar_display metar_raw metar_text).
Proof.
  destruct request as [r | e].
  2: { right. split; [discriminate | ].
       unfold rendered, metar_block, metar_display, try_except, analysis, eval, bind_script.
       now destruct (truthy metar_raw). }
  destruct (json r) as [data | e] eqn:Hj.
  2: { right. split; [intros r' data vc E; inversion E; subst; congruence | ].
       unfold rendered, metar_block, metar_display, try_except, analysis, eval, bind_script.
       cbv beta iota. rewrite Hj. now destruct (truthy metar_raw). }
  destruct (extract data metar_raw) as [[vis ceiling] | e] eqn:He.
  2: { right. split; [intros r' data' vc E E'; inversion E; subst; congruence | ].
       unfold rendered, metar_block, metar_display, try_except, analysis, eval, bind_script.
       cbv beta iota. rewrite Hj. cbv beta iota. rewrite He.
       now destruct (truthy metar_raw). }
  left. destruct (extract_shape _ _ _ _ He) as [Sv Sc].
  destruct (get_flight_rules_total vis ceiling Sv Sc) as [cat Hc].
  exists r, data, vis, ceiling, cat. repeat split; try assumption.
  unfold rendered, metar_block, metar_display, bind_script, try_except.
  rewrite (analysis_completes metar_raw r data vis ceiling (label cat) Hj He Hc).
  now destruct (truthy metar_raw).
Qed.

Lemma metar_display_silent (metar_raw metar_text : pyval) :
  shown_rules (metar_display metar_raw metar_text) = None /\
  shown_readings (metar_display metar_raw metar_text) = None.
Proof. unfold metar_display. now destruct (truthy metar_raw). Qed.

(** What a page shows of the analysis, in terms of the analysis request. *)
Lemma page_analysis (w : world) (submit : bool) (text : string) :
  let page := render w submit text in
  (category_of page = None /\ readings_of page = None) \/
  (exists metar_raw metar_text r data vis ceiling cat,
     get_metar (metar_get w) = Ok (metar_raw, metar_text) /\
     analysis_get w = Ok r /\ json r = Ok data /\
     extract data metar_raw = Ok (vis, ceiling) /\
     get_flight_rules vis ceiling = Ok (label cat) /\
     category_of page = Some (label cat) /\
     readings_of page = Some (vis, ceiling)).
Proof.
  intros page. subst page.
  destruct (render_cases w submit text)
    as [[_ ->] | [(_ & e & _ & ->)
        | (_ & _ & mr & mt & tr & tt & n & lat & lon & Hm & _ & _
           & [[_ ->] | (_ & e & _ & ->)])]];
    try (left; split; reflexivity).
  unfold category_of, readings_of.
  destruct (sections_found n lat lon (upper text)
              (rendered (metar_block mr mt (analysis_get w)))
              (rendered (taf_block tr tt))) as (_ & -> & _).
  destruct (metar_block_shape mr mt (analysis_get w))
    as [(r & data & vis & ceiling & cat & Hr & Hj & He & Hc & ->) | [_ ->]].
  - right. exists mr, mt, r, data, vis, ceiling, cat. repeat split; assumption.
  - left. cbn [shown_rules shown_readings]. apply metar_display_silent.
Qed.

(** X6: on every page the category and the readings go together: a
    category is shown exactly when readings are shown, and it is the
    classifier's result on those very readings. *)
Theorem X6_category_matches_readings (w : world) (submit : bool) (text : string) :
  let page := render w submit text in
  (forall rules,
     category_of page = Some rules ->
     exists vis ceiling,
       readings_of page = Some (vis, ceiling) /\
       get_flight_rules vis ceiling = Ok rules) /\
  (forall vis ceiling,
     readings_of page = Some (vis, ceiling) ->
     exists rules,
       category_of page = Some rules /\
       get_flight_rules vis ceiling = Ok rules).
Proof.
  intros page.
  destruct (page_analysis w submit text)
    as [[Hc Hr] | (mr & mt & r & data & vis & ceiling & cat & _ & _ & _ & _ & Hf & Hc & Hr)];
    fold page in Hc, Hr; rewrite Hc, Hr; split.
  - discriminate.
  - discriminate.
  - intros rules E. inversion E; subst. eauto.
  - intros vis' ceiling' E. inversion E; subst. eauto.
Qed.

(** X8: a report whose raw text mentions CAVOK is never graded below VFR:
    if the page shows a category at all, it is VFR, with the readings
    10000 and 5000. *)
Theorem X8_cavok_page_is_vfr (w : world) (submit : bool) (text s : string)
        (metar_text : pyval) :
  get_metar (metar_get w) = Ok (PStr s, metar_text) ->
  mentions_cavok s ->
  let page := render w submit text in
  forall rules,
    category_of page = Some rules ->
    rules = label VFR /\ readings_of page = Some (PInt 10000, PInt 5000).
Proof.
  intros Hm Hs page rules E.
  destruct (page_analysis w submit text)
    as [[Hc _] | (mr & mt & r & data & vis & ceiling & cat & Hm' & _ & _ & He & Hf & Hc & Hr)];
    fold page in Hc; rewrite Hc in E; [discriminate | ].
  fold page in Hr. rewrite Hr.
  rewrite Hm in Hm'. inversion Hm'; subst mr mt.
  unfold extract in He.
  destruct (read_visibility data) as [v0 | ]; simpl in He; [ | discriminate].
  destruct (read_ceiling data) as [c0 | ]; simpl in He; [ | discriminate].
  rewrite (cavok_override_hit s _ Hs) in He. inversion He; subst vis ceiling.
  change (get_flight_rules (PInt 10000) (PInt 5000)) with (Ok (label VFR)) in Hf.
  inversion E; subst rules. split; [congruence | reflexivity].
Qed.

End PageShape.

Section PageEdges.
Context {py : PyStr} {sl : Streamlit}.

Lemma sections_no_error (name lat lon : pyval) (icao : string) (metar taf : list ui) :
  existsb is_error
    (station_header name lat lon icao ++
     [Expander METAR_title metar; Expander TAF_title taf; Legend; Divider])%list = false.
Proof. unfold station_header. now destruct (truthy lat && truthy lon). Qed.

Lemma sections_map (name lat lon : pyval) (icao : string) (metar taf : list ui) :
  existsb is_map
    (station_header name lat lon icao ++
     [Expander METAR_title metar; Expander TAF_title taf; Legend; Divider])%list
  = truthy lat && truthy lon.
Proof. unfold station_header. now destruct (truthy lat && truthy lon). Qed.


(** X11: when the three fetchers return, the page has a map exactly when
    both coordinates are truthy and the map call returns.  With a falsy
    coordinate (absent, or the number 0) no map is asked for: the page has
    no map and no error, whatever the map call would do with the pair. *)
Theorem X11_map_needs_truthy_coordinates (w : world) (text : string)
        (m t : pyval * pyval) (name lat lon : pyval) :
  truthy (PStr (upper text)) = true ->
  get_metar (metar_get w) = Ok m ->
  get_taf (taf_get w) = Ok t ->
  get_station_name (station_get w) = Ok (name, lat, lon) ->
  let page := render w true text in
  (existsb is_map page = true <->
   truthy lat && truthy lon = true /\ map_call lat lon = Ok tt) /\
  (truthy lat && truthy lon = false ->
   existsb is_map page = false /\ existsb is_error page = false).
Proof.
  intros Hi Hm Ht Hs page. subst page. destruct m as [mr mt], t as [tr tt].
  destruct (map_step_cases lat lon) as [Hmap | [Hc [e He]]].
  - rewrite (render_sections w text _ _ _ _ _ _ _ Hi Hm Ht Hs Hmap).
    rewrite sections_map, sections_no_error. split.
    + split.
      * intros Hc. split; [exact Hc | ]. destruct Hmap; congruence.
      * now intros [Hc _].
    + intros Hc. now split.
  - rewrite (render_map_raises w text _ _ _ _ _ e Hi Hm Ht Hs Hc He).
    split.
    + split; [discriminate | ]. intros [_ Hok]. congruence.
    + intros Hf. congruence.
Qed.

(** X12: a forecast answered with status 200 but without a usable raw text
    (the key missing, null or empty) is rendered exactly like a failed
    forecast fetch: the warning alone, the sanitized text being dropped;
    with a truthy raw text the raw and the sanitized text are shown. *)
Theorem X12_forecast_without_raw_text (r : response) (kvs : list (string * pyval)) :
  status_code r = 200 -> json r = Ok (PDict kvs) ->
  let raw := or_default (lookup "raw" kvs) (PStr "") in
  let sanitized := or_default (lookup "sanitized" kvs) (PStr "") in
  get_taf (Ok r) = Ok (raw, sanitized) /\
  (truthy raw = false ->
   rendered (taf_block raw sanitized) = rendered (taf_block PNone PNone) /\
   rendered (taf_block raw sanitized) = [Warning "TAF data unavailable."]) /\
  (truthy raw = true ->
   rendered (taf_block raw sanitized) = [Code raw; Caption sanitized]).
Proof.
  intros Hs Hj raw sanitized. split; [ | split].
  - unfold get_taf. simpl. now rewrite Hs, Hj.
  - intros Hr. unfold rendered, taf_block. now rewrite Hr.
  - intros Hr. unfold rendered, taf_block. now rewrite Hr.
Qed.

(** X13: a METAR answered with status 200 but without the raw key gives the
    empty raw text.  The analysis then still runs on the payload of its own
    request, no override can fire, and when both reads succeed the expander
    shows the readings as read and their category, followed by the warning
    that the METAR is unavailable. *)
Theorem X13_category_without_raw_text (r : response) (kvs : list (string * pyval))
        (request : res response) :
  status_code r = 200 -> json r = Ok (PDict kvs) -> lookup "raw" kvs = None ->
  exists metar_text,
    get_metar (Ok r) = Ok (PStr "", metar_text) /\
    forall r' data vis ceiling,
      request = Ok r' -> json r' = Ok data ->
      read_visibility data = Ok vis -> read_ceiling data = Ok ceiling ->
      exists cat,
        get_flight_rules vis ceiling = Ok (label cat) /\
        rendered (metar_block (PStr "") metar_text request) =
          [Readings vis ceiling;
           FlightConditions (label cat) (banner_color (label cat));
           Warning "METAR data unavailable."].
Proof.
  intros Hs Hj Hr.
  exists (or_default (lookup "sanitized" kvs) (PStr "")). split.
  { unfold get_metar. simpl. rewrite Hs, Hj. simpl. now rewrite Hr. }
  intros r' data vis ceiling -> Hj' Hv Hc.
  assert (He : extract data (PStr "") = Ok (vis, ceiling)).
  { unfold extract. now rewrite Hv, Hc. }
  destruct (extract_shape _ _ _ _ He) as [Sv Sc].
  destruct (get_flight_rules_total vis ceiling Sv Sc) as [cat Hcat].
  exists cat. split; [exact Hcat | ].
  unfold rendered, metar_block, bind_script, try_except.
  now rewrite (analysis_completes (PStr "") r' data vis ceiling (label cat) Hj' He Hcat).
Qed.

End PageEdges.

Lemma X6_category_matches_readings_witness :
  let raw := "LFPG 031200Z 24008KT 9000 BKN025 18/09 Q1021" in
  let metar :=
    {| status_code := 200;
       json := Ok (PDict [("raw", PStr raw);
                          ("visibility", PDict [("meters_float", PFloat (FFin 9000))]);
                          ("clouds", PList [PDict [("base_feet_agl", PInt 2500)]])]) |} in
  let other := {| status_code := 503; json := Raise JSONDecodeError |} in
  let w := {| metar_get := Ok metar; taf_get := Ok other;
              station_get := Ok other; analysis_get := Ok metar |} in
  exists vis ceiling,
    readings_of (render (py := no_numeric_strings) (sl := map_always_renders) w true "lfpg")
    = Some (vis, ceiling) /\
    get_flight_rules vis ceiling = Ok (label VFR).
Proof.
  intros raw metar other w.
  exact (proj1 (X6_category_matches_readings
                  (py := no_numeric_strings) (sl := map_always_renders) w true "lfpg")
           (label VFR) eq_refl).
Defined.


Lemma X8_cavok_page_is_vfr_witness :
  let raw := "LFPG 031200Z 24008KT CAVOK 18/09 Q1021" in
  let metar :=
    {| status_code := 200;
       json := Ok (PDict [("raw", PStr raw);
                          ("visibility", PDict [("meters_float", PFloat (FFin 800))]);
                          ("clouds", PList [PDict [("base_feet_agl", PInt 200)]])]) |} in
  let other := {| status_code := 503; json := Raise JSONDecodeError |} in
  let w := {| metar_get := Ok metar; taf_get := Ok other;
              station_get := Ok other; analysis_get := Ok metar |} in
  readings_of (render (py := no_numeric_strings) (sl := map_always_renders) w true "lfpg")
  = Some (PInt 10000, PInt 5000).
Proof.
  intros raw metar other w.
  refine (proj2 (X8_cavok_page_is_vfr (py := no_numeric_strings) (sl := map_always_renders)
                   w true "lfpg" raw (PStr "")
                   eq_refl _ (label VFR) eq_refl)).
  exists "LFPG 031200Z 24008KT ", "CAVOK", " 18/09 Q1021". split; reflexivity.
Defined.

Lemma X11_map_needs_truthy_coordinates_witness :
  let station :=
    {| status_code := 200;
       json := Ok (PDict [("name", PStr "Quito"); ("latitude", PFloat (FFin 0));
                          ("longitude", PFloat (FFin (-78.5)))]) |} in
  let other := {| status_code := 503; json := Raise JSONDecodeError |} in
  let w := {| metar_get := Ok other; taf_get := Ok other;
              station_get := Ok station; analysis_get := Ok other |} in
  let page := render (py := no_numeric_strings) (sl := map_always_renders) w true "sequ" in
  existsb is_map page = false /\ existsb is_error page = false.
Proof.
  intros station other w page.
  exact (proj2 (X11_map_needs_truthy_coordinates
                  (py := no_numeric_strings) (sl := map_always_renders) w "sequ"
                  (PNone, PNone) (PNone, PNone) (PStr "Quito") (PFloat (FFin 0))
                  (PFloat (FFin (-78.5))) eq_refl eq_refl eq_refl eq_refl) eq_refl).
Defined.

Lemma X12_forecast_without_raw_text_witness :
  get_taf (Ok {| status_code := 200;
                 json := Ok (PDict [("sanitized", PStr "TAF LFPG 031100Z 0312/0418 24008KT")]) |})
  = Ok (PStr "", PStr "TAF LFPG 031100Z 0312/0418 24008KT").
Proof.
  exact (proj1 (X12_forecast_without_raw_text
                  {| status_code := 200;
                     json := Ok (PDict [("sanitized",
                                         PStr "TAF LFPG 031100Z 0312/0418 24008KT")]) |}
                  [("sanitized", PStr "TAF LFPG 031100Z 0312/0418 24008KT")]
                  eq_refl eq_refl)).
Defined.

Lemma X13_category_without_raw_text_witness :
  let payload :=
    {| status_code := 200;
       json := Ok (PDict [("visibility", PDict [("meters_float", PFloat (FFin 2000))]);
                          ("clouds", PList [PDict [("base_feet_agl", PInt 700)]])]) |} in
  exists metar_text cat,
    rendered (metar_block (py := no_numeric_strings) (PStr "") metar_text (Ok payload)) =
      [Readings (PFloat (FFin 2000)) (PInt 700);
       FlightConditions (label cat) (banner_color (label cat));
       Warning "METAR data unavailable."].
Proof.
  intros payload.
  destruct (X13_category_without_raw_text (py := no_numeric_strings)
              payload
              [("visibility", PDict [("meters_float", PFloat (FFin 2000))]);
               ("clouds", PList [PDict [("base_feet_agl", PInt 700)]])]
              (Ok payload) eq_refl eq_refl eq_refl) as [metar_text [_ H]].
  destruct (H payload _ (PFloat (FFin 2000)) (PInt 700) eq_refl eq_refl eq_refl eq_refl)
    as [cat [_ Hc]].
  exists metar_text, cat. exact Hc.
Defined.

(** ** The city weather fetcher *)

Section Weather.
Context {ar : PyArith}.

(** Runs [get_weather] through its lookups, one case per outcome. *)
Ltac step_weather :=
  repeat match goal with
         | |- context [lift ?m] => destruct m; cbn [lift bind_weather]
         | |- context [bind_weather (py_first ?x) _] =>
             destruct (py_first x); cbn [bind_weather]
         end.

(** X14: on a payload that is an object, [get_weather] returns None exactly
    when the key main or the key weather is missing; the status code plays
    no part.  With both keys present it returns a record or raises, never
    None. *)
Theorem X14_weather_absent_iff (r : response) (kvs : list (string * pyval))
        (city : string) :
  json r = Ok (PDict kvs) ->
  (get_weather (Ok r) city = Returns None <->
   lookup "main" kvs = None \/ lookup "weather" kvs = None).
Proof.
  intros Hj. unfold get_weather. cbn [lift bind_weather]. rewrite Hj.
  cbn [lift bind_weather py_contains py_and bind_res py_getitem].
  destruct (lookup "main" kvs) as [m | ] eqn:Hm;
    destruct (lookup "weather" kvs) as [wv | ] eqn:Hw;
    cbn [lift bind_weather]; try (split; [auto | reflexivity]).
  split; [ | intros [H | H]; discriminate H].
  step_weather; discriminate.
Qed.

(** X15: what [get_weather] does once main (an object) and weather are
    present.  A missing temp raises KeyError and an empty weather list
    raises IndexError: the presence test covers neither.  With a first
    weather entry carrying description and icon, a missing wind raises
    KeyError, a speed that is not a number raises TypeError, and otherwise
    the record holds the payload's temp, description, icon and pressure
    unchanged, the converted speed, and the city it was called with. *)
Theorem X15_weather_fields (r : response) (kvs m : list (string * pyval))
        (wv : pyval) (city : string) :
  json r = Ok (PDict kvs) ->
  lookup "main" kvs = Some (PDict m) -> lookup "weather" kvs = Some wv ->
  (lookup "temp" m = None -> get_weather (Ok r) city = Raises (Exn KeyError)) /\
  (forall t, lookup "temp" m = Some t -> wv = PList [] ->
             get_weather (Ok r) city = Raises IndexError) /\
  (forall t first rest d i,
     lookup "temp" m = Some t -> wv = PList (PDict first :: rest) ->
     lookup "description" first = Some d -> lookup "icon" first = Some i ->
     (lookup "wind" kvs = None -> get_weather (Ok r) city = Raises (Exn KeyError)) /\
     (forall wd sp p,
        lookup "wind" kvs = Some (PDict wd) -> lookup "speed" wd = Some sp ->
        lookup "pressure" m = Some p ->
        (is_number sp = false -> get_weather (Ok r) city = Raises (Exn TypeError)) /\
        (forall k, is_number sp = true -> knots sp = Ok k ->
                   get_weather (Ok r) city =
                     Returns (Some {| w_temp := t; w_desc := d; w_icon := i;
                                      w_wind := k; w_pressure := p; w_city := city |})))).
Proof.
  intros Hj Hm Hw. unfold get_weather. cbn [lift bind_weather]. rewrite Hj.
  cbn [lift bind_weather py_contains py_and bind_res py_getitem].
  rewrite Hm, Hw. cbn [lift bind_weather py_getitem].
  split; [ | split].
  - intros Ht. now rewrite Ht.
  - intros t Ht ->. now rewrite Ht.
  - intros t first rest d i Ht -> Hd Hi. rewrite Ht.
    cbn [lift bind_weather py_first py_getitem]. rewrite Hd, Hi.
    cbn [lift bind_weather]. split.
    + intros Hwind. now rewrite Hwind.
    + intros wd sp p Hwind Hsp Hp. rewrite Hwind.
      cbn [lift bind_weather py_getitem]. rewrite Hsp, Hp.
      cbn [lift bind_weather]. split.
      * intros Hn. now rewrite Hn.
      * intros k Hn Hk. now rewrite Hn, Hk.
Qed.

End Weather.

Lemma X14_weather_absent_iff_witness :
  get_weather (ar := no_arithmetic)
    (Ok {| status_code := 404;
           json := Ok (PDict [("cod", PStr "404"); ("message", PStr "city not found")]) |})
    "Atlantis"
  = Returns None.
Proof.
  refine (proj2 (X14_weather_absent_iff (ar := no_arithmetic)
                   {| status_code := 404;
                      json := Ok (PDict [("cod", PStr "404");
                                         ("message", PStr "city not found")]) |}
                   [("cod", PStr "404"); ("message", PStr "city not found")]
                   "Atlantis" eq_refl) _).
  left. reflexivity.
Defined.

Lemma X15_weather_fields_witness :
  get_weather (ar := no_arithmetic)
    (Ok {| status_code := 200;
           json := Ok (PDict [("main", PDict [("temp", PFloat (FFin 18.4));
                                              ("pressure", PInt 1021)]);
                              ("weather", PList [])]) |})
    "Paris"
  = Raises IndexError.
Proof.
  exact (proj1 (proj2 (X15_weather_fields (ar := no_arithmetic)
                         {| status_code := 200;
                            json := Ok (PDict [("main", PDict [("temp", PFloat (FFin 18.4));
                                                               ("pressure", PInt 1021)]);
                                               ("weather", PList [])]) |}
                         [("main", PDict [("temp", PFloat (FFin 18.4)); ("pressure", PInt 1021)]);
                          ("weather", PList [])]
                         [("temp", PFloat (FFin 18.4)); ("pressure", PInt 1021)]
                         (PList []) "Paris" eq_refl eq_refl eq_refl))
           (PFloat (FFin 18.4)) eq_refl eq_refl).
Defined.
